(** * Authentication lifecycle of the job portal, embedded in Rocq

    The development follows these source files:
    - [job-portal-server/routes/auth.js]   (the routes of the auth router,
      and the password rules and strength check of config/security.js),
    - [getSomeJobServer/routes/mfa.js]     (the routes of the MFA router),
    - [middleware/auth.js], [config/security.js] (authentication
      middleware, backup codes, password expiry),
    - [job-portal-client/src/services/api.js] (the CSRF token store).

    Conventions of the embedding.
    - A JavaScript string is a [string] whose characters are its code units
      (code units below 256); [length] is then [String.length].
    - Numbers that the code only ever uses as natural numbers (millisecond
      timestamps, counters, HTTP status codes) are [N].
    - The [users] collection is a [list] of documents in insertion order;
      [findOne], [updateOne] and [deleteOne] act on the first match, and
      [insertOne] appends with an unused [_id].  No route supplies an
      [_id] of its own, so every document is keyed by an ObjectId (a
      number here); [_id.toString()] is its 24-digit hexadecimal string.
      A query [{ _id: v }] compares by BSON type and value: a string [v]
      is equal to no ObjectId, whatever its digits.
    - The two in-memory [Map]s ([otpStore], [passwordResetTokens]) are
      [gmap string _].
    - Everything a handler obtains from outside (clock readings, random
      values, bcrypt, the mail transport, reCAPTCHA, the TOTP library, the
      outcome of the express-validator chain) is an explicit input. *)

From Stdlib Require Import NArith ZArith Ascii String List Bool Sorted Lia.
From stdpp Require Import base option list strings gmap.

Local Open Scope string_scope.
Local Open Scope N_scope.

(** ** JavaScript string primitives used by the sources *)

Module JS.

Definition code (c : ascii) : N := N_of_ascii c.

(** [/[a-z]/], [/[A-Z]/], [/\d/] and [/[@$!%*?&]/] on one code unit. *)
Definition isLower (c : ascii) : bool := (97 <=? code c) && (code c <=? 122).
Definition isUpper (c : ascii) : bool := (65 <=? code c) && (code c <=? 90).
Definition isDigit (c : ascii) : bool := (48 <=? code c) && (code c <=? 57).
Definition isSpecial (c : ascii) : bool :=
  existsb (Ascii.eqb c) (list_ascii_of_string "@$!%*?&").

(** [re.test(s)] for a one-character class: some code unit is in the class. *)
Definition test (cls : ascii -> bool) (s : string) : bool :=
  existsb cls (list_ascii_of_string s).

(** The code units below 256 whose upper-case form is again below 256:
    a-z and the Latin-1 small letters 224-254 without the division sign
    (247). *)
Definition hasUpperForm (c : ascii) : bool :=
  isLower c || ((224 <=? code c) && (code c <=? 254) && negb (code c =? 247)).

Definition upperChar (c : ascii) : ascii :=
  if hasUpperForm c then ascii_of_N (code c - 32) else c.

(** [s.toUpperCase()] on strings of code units below 256.  The three
    code units that JavaScript maps outside that range (181, 223, 255)
    are left as they are. *)
Fixpoint toUpperCase (s : string) : string :=
  match s with
  | EmptyString => EmptyString
  | String c s' => String (upperChar c) (toUpperCase s')
  end.

(** [arr.includes(x)] on an array of strings. *)
Definition includes (arr : list string) (x : string) : bool :=
  existsb (String.eqb x) arr.

(** [n.toString(16)] for one nibble, lower case as Node prints it. *)
Definition hexDigit (n : N) : ascii :=
  if n <? 10 then ascii_of_N (48 + n) else ascii_of_N (87 + n).

(** [Buffer.toString('hex')]: two digits per byte. *)
Fixpoint toHex (bytes : list N) : string :=
  match bytes with
  | [] => EmptyString
  | b :: bs => String (hexDigit ((b mod 256) / 16))
                 (String (hexDigit (b mod 16)) (toHex bs))
  end.

End JS.

(** ** config/security.js *)

Module Security.

(** [SECURITY_CONFIG]: the entries the modelled code reads. *)
Definition MIN_LENGTH : N := 8.
Definition MAX_LENGTH : N := 16.
Definition PREVIOUS_PASSWORDS_COUNT : nat := 5.
Definition OTP_EXPIRES_IN : N := 10 * 60 * 1000.
Definition BACKUP_CODES_COUNT : nat := 10.
Definition BACKUP_CODE_LENGTH : nat := 8.

Record Checks := {
  chk_length : bool;
  chk_lowercase : bool;
  chk_uppercase : bool;
  chk_numbers : bool;
  chk_special : bool
}.

Inductive Strength := weak | medium | strong.

Record StrengthReport := {
  score : N;
  strength : Strength;
  checks : Checks;
  isValid : bool
}.

(** [Object.values(checks)], in property order. *)
Definition values (c : Checks) : list bool :=
  [chk_length c; chk_lowercase c; chk_uppercase c; chk_numbers c; chk_special c].

Definition strLength (s : string) : N := N.of_nat (String.length s).

Definition checkPasswordStrength (password : string) : StrengthReport :=
  let checks :=
    {| chk_length := (MIN_LENGTH <=? strLength password)
                       && (strLength password <=? MAX_LENGTH);
       chk_lowercase := JS.test JS.isLower password;
       chk_uppercase := JS.test JS.isUpper password;
       chk_numbers := JS.test JS.isDigit password;
       chk_special := JS.test JS.isSpecial password |} in
  let score := N.of_nat (List.length (List.filter (fun b : bool => b) (values checks))) in
  let strength := if score <? 3 then weak else if score <? 5 then medium else strong in
  {| score := score; strength := strength; checks := checks;
     isValid := score =? 5 |}.

(** [generateBackupCodes]: [randomBytes i] is the buffer returned by the
    [i]-th call of [crypto.randomBytes(BACKUP_CODE_LENGTH / 2)]. *)
Definition generateBackupCodes (randomBytes : nat -> list N) : list string :=
  List.map (fun i => JS.toUpperCase (JS.toHex (randomBytes i)))
           (seq 0 BACKUP_CODES_COUNT).

Definition verifyBackupCode (code : string) (backupCodes : list string) : bool :=
  JS.includes backupCodes (JS.toUpperCase code).

End Security.

(** ** The document store (the part of the MongoDB driver the routes use) *)

Module Store.
Section Collection.
Context {Doc : Type}.

(** [collection.findOne(q)]: the first document satisfying the query. *)
Definition findOne (q : Doc -> bool) (c : list Doc) : option Doc :=
  List.find q c.

(** [collection.updateOne(q, upd)]: the first match is rewritten. *)
Fixpoint updateOne (q : Doc -> bool) (upd : Doc -> Doc) (c : list Doc) : list Doc :=
  match c with
  | [] => []
  | d :: c' => if q d then upd d :: c' else d :: updateOne q upd c'
  end.

(** [collection.deleteOne(q)]: the first match is removed. *)
Fixpoint deleteOne (q : Doc -> bool) (c : list Doc) : list Doc :=
  match c with
  | [] => []
  | d :: c' => if q d then c' else d :: deleteOne q c'
  end.

(** An id that no document of the collection carries, as the driver
    draws for [insertOne]. *)
Definition freshId (id : Doc -> N) (c : list Doc) : N :=
  N.succ (List.fold_right (fun d m => N.max (id d) m) 0 c).
End Collection.

(** The value a query gives for [_id]: an ObjectId, or a string. *)
Inductive IdValue :=
| ObjectId (o : N)
| IdString (s : string).

(** Equality of a document key (an ObjectId) with a queried value. *)
Definition idEq (key : N) (v : IdValue) : bool :=
  match v with
  | ObjectId o => key =? o
  | IdString _ => false
  end.

(** The twelve bytes of an ObjectId, most significant first. *)
Definition objectIdBytes (o : N) : list N :=
  List.map (fun i => (o / 256 ^ N.of_nat (11 - i)%nat) mod 256) (seq 0 12).

(** [ObjectId.prototype.toString]: the bytes in hexadecimal. *)
Definition toString (o : N) : string := JS.toHex (objectIdBytes o).

End Store.

(** ** job-portal-server/routes/auth.js *)

Module Auth.
Import Security Store.

(** The password hashing primitive ([bcrypt.hash] draws a salt,
    [bcrypt.compare] checks a password against a stored hash). *)
Class Bcrypt := {
  hashPassword : string -> string -> string;
  comparePassword : string -> string -> bool
}.

Record HistoryItem := { hi_password : string; hi_createdAt : N }.

(** A document of the [users] collection.  [option] fields are those a
    document may lack or hold [null] in. *)
Record User := {
  _id : N;
  email : string;
  name : string;
  role : string;
  company : option string;
  password : string;
  isVerified : bool;
  verificationOTP : option string;
  otpExpiry : option N;
  passwordHistory : option (list HistoryItem);
  loginAttempts : option N;
  lockUntil : option N;
  lastLogin : option N;
  createdAt : N;
  updatedAt : N;
  verifiedAt : option N
}.

Record OtpEntry := { otp : string; expiry : N; attempts : N }.
Record ResetData := { rd_userId : string; rd_email : string; rd_expiry : N }.
Record AuditEvent := { ev_userId : string; ev_action : string; ev_email : string }.

(** Server state: the collection, the two module-level [Map]s and the
    audit trail written by [logAuditEvent]. *)
Record State := {
  users : list User;
  otpStore : gmap string OtpEntry;
  passwordResetTokens : gmap string ResetData;
  auditLog : list AuditEvent
}.

(** [req.user], as the authentication middleware leaves it: [userId] is
    the string [user._id.toString()]. *)
Record AuthUser := { userId : string; au_email : string }.

(** The request: the outcome of the validator chain and the body fields. *)
Record Request := {
  errors : list string;
  body_email : string;
  body_name : string;
  body_password : string;
  body_role : string;
  body_company : option string;
  body_otp : string;
  body_token : string;
  body_currentPassword : string;
  req_user : option AuthUser
}.

(** What one request draws from outside.  [now] is the first clock
    reading the handler takes; [later] is a reading taken after a
    further [await] (in [/login], after [comparePassword]; in
    [/reset-password], after the lookups and the hashing). *)
Record Env := {
  now : N;
  later : N;
  captcha_isValid : bool;
  captcha_message : string;
  mail_success : bool;
  random_otp : string;
  random_sessionId : string;
  random_resetToken : string;
  salt : string
}.

(** The token payload; [userId] is [user._id.toString()]. *)
Record Token := {
  tk_userId : string; tk_email : string; tk_role : string; tk_sessionId : string
}.

Record PublicUser := {
  pu_id : N; pu_email : string; pu_name : string; pu_role : string;
  pu_company : option string
}.

Inductive Payload :=
| NoPayload
| ErrorList (errs : list string)
| StrengthInfo (passwordStrength : StrengthReport)
| Registered (insertedId : N)
| Session (token : Token) (user : PublicUser).

(** [res.status(..).json({success, message, ...})]. *)
Record Response := {
  status : N;
  success : bool;
  message : option string;
  payload : Payload
}.

Definition reject (st : N) (msg : string) : Response :=
  {| status := st; success := false; message := Some msg; payload := NoPayload |}.
Definition accept (st : N) (msg : string) (p : Payload) : Response :=
  {| status := st; success := true; message := Some msg; payload := p |}.

Definition validationFailed (errs : list string) : Response :=
  {| status := 400; success := false; message := None; payload := ErrorList errs |}.
Definition weakPassword (r : StrengthReport) : Response :=
  {| status := 400; success := false;
     message := Some "Password does not meet security requirements";
     payload := StrengthInfo r |}.

(** The error envelopes, named as in the specification's taxonomy. *)
Definition InvalidCredentialsError := reject 401 "Invalid credentials".
Definition AccountLockedError :=
  reject 423 "Account is temporarily locked due to too many failed attempts".
Definition UnverifiedError := reject 401 "Please verify your email before logging in".
Definition InvalidCodeError := reject 400 "Invalid or expired OTP".
Definition InvalidTokenError := reject 400 "Invalid or expired reset token".
Definition NotFoundError := reject 404 "User not found".
Definition AlreadyVerifiedError := reject 400 "Email already verified".
Definition DuplicateAccountError := reject 400 "User already exists".
Definition DeliveryError := reject 500 "Failed to send verification email".
Definition HistoryError :=
  reject 400 "Password cannot be the same as your previous passwords".

(** The queries [{ email }], [{ _id: <ObjectId> }] and [{ _id: <string> }]. *)
Definition byEmail (e : string) (u : User) : bool := String.eqb (email u) e.
Definition byId (i : N) (u : User) : bool := (_id u =? i).
Definition byIdString (s : string) (u : User) : bool := idEq (_id u) (IdString s).

Definition publicView (u : User) : PublicUser :=
  {| pu_id := _id u; pu_email := email u; pu_name := name u;
     pu_role := role u; pu_company := company u |}.

Definition generateToken (u : User) (sessionId : string) : Token :=
  {| tk_userId := toString (_id u); tk_email := email u; tk_role := role u;
     tk_sessionId := sessionId |}.

(** *** State and document updates *)

Definition with_users (st : State) (us : list User) : State :=
  {| users := us; otpStore := otpStore st;
     passwordResetTokens := passwordResetTokens st; auditLog := auditLog st |}.
Definition with_otpStore (st : State) (m : gmap string OtpEntry) : State :=
  {| users := users st; otpStore := m;
     passwordResetTokens := passwordResetTokens st; auditLog := auditLog st |}.
Definition with_resetTokens (st : State) (m : gmap string ResetData) : State :=
  {| users := users st; otpStore := otpStore st;
     passwordResetTokens := m; auditLog := auditLog st |}.

Definition logAuditEvent (uid : string) (action e : string) (st : State) : State :=
  {| users := users st; otpStore := otpStore st;
     passwordResetTokens := passwordResetTokens st;
     auditLog := auditLog st ++ [{| ev_userId := uid; ev_action := action; ev_email := e |}] |}.

(** [$set: { loginAttempts, lockUntil }] *)
Definition setLoginFailure (attempts : N) (lock : option N) (u : User) : User :=
  {| _id := _id u; email := email u; name := name u; role := role u;
     company := company u; password := password u; isVerified := isVerified u;
     verificationOTP := verificationOTP u; otpExpiry := otpExpiry u;
     passwordHistory := passwordHistory u;
     loginAttempts := Some attempts; lockUntil := lock;
     lastLogin := lastLogin u; createdAt := createdAt u; updatedAt := updatedAt u;
     verifiedAt := verifiedAt u |}.

(** [$set: { loginAttempts: 0, lockUntil: null, lastLogin: new Date() }] *)
Definition setLoginSuccess (t : N) (u : User) : User :=
  {| _id := _id u; email := email u; name := name u; role := role u;
     company := company u; password := password u; isVerified := isVerified u;
     verificationOTP := verificationOTP u; otpExpiry := otpExpiry u;
     passwordHistory := passwordHistory u;
     loginAttempts := Some 0; lockUntil := None;
     lastLogin := Some t; createdAt := createdAt u; updatedAt := updatedAt u;
     verifiedAt := verifiedAt u |}.

(** [$set: { isVerified: true, verifiedAt, updatedAt },
     $unset: { verificationOTP, otpExpiry }] *)
Definition setVerified (t : N) (u : User) : User :=
  {| _id := _id u; email := email u; name := name u; role := role u;
     company := company u; password := password u; isVerified := true;
     verificationOTP := None; otpExpiry := None;
     passwordHistory := passwordHistory u;
     loginAttempts := loginAttempts u; lockUntil := lockUntil u;
     lastLogin := lastLogin u; createdAt := createdAt u; updatedAt := t;
     verifiedAt := Some t |}.

(** [$set: { password, passwordHistory, updatedAt }] *)
Definition setPassword (h : string) (hist : list HistoryItem) (t : N) (u : User) : User :=
  {| _id := _id u; email := email u; name := name u; role := role u;
     company := company u; password := h; isVerified := isVerified u;
     verificationOTP := verificationOTP u; otpExpiry := otpExpiry u;
     passwordHistory := Some hist;
     loginAttempts := loginAttempts u; lockUntil := lockUntil u;
     lastLogin := lastLogin u; createdAt := createdAt u; updatedAt := t;
     verifiedAt := verifiedAt u |}.

(** [user.lockUntil && user.lockUntil > Date.now()] *)
Definition isLocked (u : User) (t : N) : bool :=
  match lockUntil u with
  | Some l => negb (l =? 0) && (t <? l)
  | None => false
  end.

(** [company || null]: an absent or empty company is stored as [null]. *)
Definition orNull (c : option string) : option string :=
  match c with
  | Some x => if String.eqb x "" then None else Some x
  | None => None
  end.

(** [user.passwordHistory || []] and [user.loginAttempts || 0] *)
Definition historyOf (u : User) : list HistoryItem := default [] (passwordHistory u).
Definition attemptsOf (u : User) : N := default 0 (loginAttempts u).

(** The [for ... of passwordHistory] loop: some stored hash matches. *)
Definition inHistory `{Bcrypt} (pw : string) (hist : list HistoryItem) : bool :=
  existsb (fun historyItem => comparePassword pw (hi_password historyItem)) hist.

(** [[{password, createdAt}, ...passwordHistory.slice(0, COUNT - 1)]] *)
Definition newPasswordHistory (h : string) (t : N) (hist : list HistoryItem)
  : list HistoryItem :=
  {| hi_password := h; hi_createdAt := t |}
    :: firstn (PREVIOUS_PASSWORDS_COUNT - 1) hist.

Section Handlers.
Context `{Bcrypt}.

(** [router.post('/register')] *)
Definition register (env : Env) (req : Request) (st : State) : State * Response :=
  if negb (bool_decide (errors req = [])) then (st, validationFailed (errors req)) else
  if negb (captcha_isValid env) then (st, reject 400 (captcha_message env)) else
  let passwordStrength := checkPasswordStrength (body_password req) in
  if negb (isValid passwordStrength) then (st, weakPassword passwordStrength) else
  match findOne (byEmail (body_email req)) (users st) with
  | Some _ => (st, DuplicateAccountError)
  | None =>
    let hashedPassword := hashPassword (body_password req) (salt env) in
    let otp := random_otp env in
    let otpExpiry := now env + OTP_EXPIRES_IN in
    let st := with_otpStore st
                (<[body_email req := {| otp := otp; expiry := otpExpiry; attempts := 0 |}]>
                   (otpStore st)) in
    let insertedId := freshId _id (users st) in
    let user :=
      {| _id := insertedId;
         email := body_email req; name := body_name req; role := body_role req;
         company := orNull (body_company req);
         password := hashedPassword;
         isVerified := false;
         verificationOTP := Some otp; otpExpiry := Some otpExpiry;
         passwordHistory :=
           Some [{| hi_password := hashedPassword; hi_createdAt := now env |}];
         loginAttempts := Some 0; lockUntil := None; lastLogin := None;
         createdAt := now env; updatedAt := now env; verifiedAt := None |} in
    let st := with_users st (users st ++ [user]) in
    if negb (mail_success env) then
      (with_users st (deleteOne (byId insertedId) (users st)), DeliveryError)
    else
      (logAuditEvent (toString insertedId) "USER_REGISTRATION" (body_email req) st,
       accept 201 "Registration successful. Please check your email for verification."
              (Registered insertedId))
  end.

(** [router.post('/verify-email')] *)
Definition verify_email (env : Env) (req : Request) (st : State) : State * Response :=
  if negb (bool_decide (errors req = [])) then (st, validationFailed (errors req)) else
  match findOne (byEmail (body_email req)) (users st) with
  | None => (st, NotFoundError)
  | Some user =>
    if isVerified user then (st, AlreadyVerifiedError) else
    let invalid :=
      match otpStore st !! body_email req with
      | None => true
      | Some storedOTP =>
          negb (String.eqb (otp storedOTP) (body_otp req))
          || (expiry storedOTP <? now env)
      end in
    if invalid then (st, InvalidCodeError) else
    let st := with_users st
                (updateOne (byEmail (body_email req)) (setVerified (now env)) (users st)) in
    let st := with_otpStore st (delete (body_email req) (otpStore st)) in
    let token := generateToken user (random_sessionId env) in
    (logAuditEvent (toString (_id user)) "EMAIL_VERIFICATION" (body_email req) st,
     accept 200 "Email verified successfully" (Session token (publicView user)))
  end.

(** [router.post('/login')] *)
Definition login (env : Env) (req : Request) (st : State) : State * Response :=
  if negb (bool_decide (errors req = [])) then (st, validationFailed (errors req)) else
  if negb (captcha_isValid env) then (st, reject 400 (captcha_message env)) else
  match findOne (byEmail (body_email req)) (users st) with
  | None => (st, InvalidCredentialsError)
  | Some user =>
    if isLocked user (now env) then (st, AccountLockedError) else
    if negb (isVerified user) then (st, UnverifiedError) else
    if negb (comparePassword (body_password req) (password user)) then
      let newLoginAttempts := attemptsOf user + 1 in
      let lockUntil :=
        if 5 <=? newLoginAttempts then Some (later env + 15 * 60 * 1000) else None in
      let st := with_users st
                  (updateOne (byEmail (body_email req))
                             (setLoginFailure newLoginAttempts lockUntil) (users st)) in
      (logAuditEvent (toString (_id user)) "LOGIN_FAILED" (body_email req) st,
       InvalidCredentialsError)
    else
      let st := with_users st
                  (updateOne (byEmail (body_email req))
                             (setLoginSuccess (later env)) (users st)) in
      let token := generateToken user (random_sessionId env) in
      (logAuditEvent (toString (_id user)) "LOGIN_SUCCESS" (body_email req) st,
       accept 200 "Login successful" (Session token (publicView user)))
  end.

(** [router.post('/forgot-password')] *)
Definition forgot_password (env : Env) (req : Request) (st : State) : State * Response :=
  if negb (bool_decide (errors req = [])) then (st, validationFailed (errors req)) else
  match findOne (byEmail (body_email req)) (users st) with
  | None =>
    (st, accept 200
           "If an account with this email exists, a password reset link has been sent"
           NoPayload)
  | Some user =>
    let resetToken := random_resetToken env in
    let resetExpiry := now env + 60 * 60 * 1000 in
    let st := with_resetTokens st
                (<[resetToken := {| rd_userId := toString (_id user); rd_email := email user;
                                    rd_expiry := resetExpiry |}]>
                   (passwordResetTokens st)) in
    if mail_success env then
      (logAuditEvent (toString (_id user)) "PASSWORD_RESET_REQUESTED" (body_email req) st,
       accept 200 "Password reset link sent to your email" NoPayload)
    else
      (st, reject 500 "Failed to send password reset email")
  end.

(** The common tail of reset-password and change-password: the
    history check, then the update of hash and history, addressed by
    [{ _id: user._id }]. *)
Definition updatePassword (env : Env) (t : N) (req : Request) (user : User) (st : State)
  : option State :=
  let passwordHistory := historyOf user in
  if inHistory (body_password req) passwordHistory then None else
  let hashedPassword := hashPassword (body_password req) (salt env) in
  Some (with_users st
          (updateOne (byId (_id user))
             (setPassword hashedPassword
                (newPasswordHistory hashedPassword t passwordHistory) t)
             (users st))).

(** [router.post('/reset-password')].  The user is looked up by
    [{ _id: resetData.userId }], the string that forgot-password stored. *)
Definition reset_password (env : Env) (req : Request) (st : State) : State * Response :=
  if negb (bool_decide (errors req = [])) then (st, validationFailed (errors req)) else
  let passwordStrength := checkPasswordStrength (body_password req) in
  if negb (isValid passwordStrength) then (st, weakPassword passwordStrength) else
  match passwordResetTokens st !! body_token req with
  | None => (st, InvalidTokenError)
  | Some resetData =>
    if rd_expiry resetData <? now env then (st, InvalidTokenError) else
    match findOne (byIdString (rd_userId resetData)) (users st) with
    | None => (st, NotFoundError)
    | Some user =>
      match updatePassword env (later env) req user st with
      | None => (st, HistoryError)
      | Some st =>
        let st := with_resetTokens st (delete (body_token req) (passwordResetTokens st)) in
        (logAuditEvent (toString (_id user)) "PASSWORD_RESET_COMPLETED" (email user) st,
         accept 200 "Password reset successful" NoPayload)
      end
    end
  end.

(** [router.post('/change-password')]; reading [req.user.userId] of an
    absent [req.user] throws, which the handler's [catch] answers.  The
    user is looked up by [{ _id: userId }] with that string. *)
Definition change_password (env : Env) (req : Request) (st : State) : State * Response :=
  if negb (bool_decide (errors req = [])) then (st, validationFailed (errors req)) else
  match req_user req with
  | None => (st, reject 500 "Password change failed")
  | Some caller =>
    let passwordStrength := checkPasswordStrength (body_password req) in
    if negb (isValid passwordStrength) then (st, weakPassword passwordStrength) else
    match findOne (byIdString (userId caller)) (users st) with
    | None => (st, NotFoundError)
    | Some user =>
      if negb (comparePassword (body_currentPassword req) (password user)) then
        (st, reject 401 "Current password is incorrect")
      else if comparePassword (body_password req) (password user) then
        (st, reject 400 "New password must be different from current password")
      else
        match updatePassword env (now env) req user st with
        | None => (st, HistoryError)
        | Some st =>
          (logAuditEvent (toString (_id user)) "PASSWORD_CHANGED" (email user) st,
           accept 200 "Password changed successfully" NoPayload)
        end
    end
  end.

(** A run of [/login] requests, oldest first, with the responses. *)
Fixpoint logins (calls : list (Env * Request)) (st : State) : State * list Response :=
  match calls with
  | [] => (st, [])
  | (env, req) :: calls' =>
    let (st1, r) := login env req st in
    let (st2, rs) := logins calls' st1 in
    (st2, r :: rs)
  end.

End Handlers.

End Auth.

(** ** getSomeJobServer/routes/mfa.js *)

Module Mfa.
Import Security Store.

(** The TOTP primitive behind [verifyMFAToken(token, secret)], read at
    the current time.  The secret may be [undefined]; [None] as a result
    stands for a call that throws. *)
Class Totp := {
  verifyMFAToken : string -> option string -> N -> option bool
}.

(** The fields of a [users] document this router reads or writes.  An
    absent [mfaEnabled] or [mfaSetupPending] reads as [false]. *)
Record User := {
  _id : N;
  email : string;
  mfaEnabled : bool;
  mfaSetupPending : bool;
  mfaSecret : option string;
  mfaBackupCodes : option (list string);
  updatedAt : N
}.

Record AuditEvent := { ev_userId : string; ev_action : string; ev_email : string }.

Record State := {
  users : list User;
  auditLog : list AuditEvent
}.

(** [userId] is [req.user.userId] as [authenticateUser] set it: the
    string [user._id.toString()]. *)
Record Request := {
  errors : list string;
  userId : string;
  body_email : string;
  body_token : string;
  body_backupCode : string
}.

Record Env := {
  now : N;
  random_secret : string;
  qrCode : option string;
  randomBytes : nat -> list N
}.

Inductive Payload :=
| NoPayload
| ErrorList (errs : list string)
| SetupInfo (qr : option string) (backupCodes : list string) (secret : string).

Record Response := {
  status : N;
  success : bool;
  message : option string;
  payload : Payload
}.

Definition reject (st : N) (msg : string) : Response :=
  {| status := st; success := false; message := Some msg; payload := NoPayload |}.
Definition accept (msg : string) (p : Payload) : Response :=
  {| status := 200; success := true; message := Some msg; payload := p |}.
Definition validationFailed (errs : list string) : Response :=
  {| status := 400; success := false; message := None; payload := ErrorList errs |}.

Definition InvalidMfaToken := reject 400 "Invalid MFA token".
Definition InvalidBackupCode := reject 400 "Invalid backup code".

(** The queries [{ email }], [{ _id: <ObjectId> }] and [{ _id: <string> }]. *)
Definition byEmail (e : string) (u : User) : bool := String.eqb (email u) e.
Definition byId (i : N) (u : User) : bool := (_id u =? i).
Definition byIdString (s : string) (u : User) : bool := idEq (_id u) (IdString s).

Definition logAuditEvent (uid : string) (action e : string) (st : State) : State :=
  {| users := users st;
     auditLog := auditLog st ++ [{| ev_userId := uid; ev_action := action; ev_email := e |}] |}.

Definition with_users (st : State) (us : list User) : State :=
  {| users := us; auditLog := auditLog st |}.

(** [$set: { mfaSecret, mfaBackupCodes, mfaSetupPending: true, updatedAt }] *)
Definition setPending (secret : string) (codes : list string) (t : N) (u : User) : User :=
  {| _id := _id u; email := email u; mfaEnabled := mfaEnabled u;
     mfaSetupPending := true; mfaSecret := Some secret;
     mfaBackupCodes := Some codes; updatedAt := t |}.

(** [$set: { mfaEnabled: true, mfaSetupPending: false, updatedAt },
     $unset: { mfaSecret: "" }] *)
Definition setEnabled (t : N) (u : User) : User :=
  {| _id := _id u; email := email u; mfaEnabled := true;
     mfaSetupPending := false; mfaSecret := None;
     mfaBackupCodes := mfaBackupCodes u; updatedAt := t |}.

(** [$set: { mfaEnabled: false, updatedAt },
     $unset: { mfaSecret: "", mfaBackupCodes: "" }] *)
Definition setDisabled (t : N) (u : User) : User :=
  {| _id := _id u; email := email u; mfaEnabled := false;
     mfaSetupPending := mfaSetupPending u; mfaSecret := None;
     mfaBackupCodes := None; updatedAt := t |}.

(** [$set: { mfaBackupCodes, updatedAt }] *)
Definition setBackupCodes (codes : list string) (t : N) (u : User) : User :=
  {| _id := _id u; email := email u; mfaEnabled := mfaEnabled u;
     mfaSetupPending := mfaSetupPending u; mfaSecret := mfaSecret u;
     mfaBackupCodes := Some codes; updatedAt := t |}.

(** Truthiness of [user.mfaSecret]: present and not the empty string. *)
Definition hasSecret (u : User) : bool :=
  match mfaSecret u with
  | Some s => negb (String.eqb s "")
  | None => false
  end.

Section Handlers.
Context `{Totp}.

(** [router.post('/setup')].  Here and in the next two routes the
    document is looked up and updated by [{ _id: userId }]; reading a
    field of the [null] that a lookup returns throws, which the [catch]
    answers with status 500. *)
Definition setup (env : Env) (req : Request) (st : State) : State * Response :=
  match findOne (byIdString (userId req)) (users st) with
  | None => (st, reject 500 "MFA setup failed")
  | Some user =>
    if mfaEnabled user then (st, reject 400 "MFA is already enabled for this account") else
    let secret := random_secret env in
    let backupCodes := generateBackupCodes (randomBytes env) in
    let st := with_users st
                (updateOne (byIdString (userId req)) (setPending secret backupCodes (now env))
                           (users st)) in
    (logAuditEvent (userId req) "MFA_SETUP_INITIATED" (email user) st,
     accept "MFA setup initiated" (SetupInfo (qrCode env) backupCodes secret))
  end.

(** [router.post('/verify-setup')] *)
Definition verify_setup (env : Env) (req : Request) (st : State) : State * Response :=
  if negb (bool_decide (errors req = [])) then (st, validationFailed (errors req)) else
  match findOne (byIdString (userId req)) (users st) with
  | None => (st, reject 500 "MFA verification failed")
  | Some user =>
    if negb (mfaSetupPending user) || negb (hasSecret user) then
      (st, reject 400 "MFA setup not initiated")
    else
      match verifyMFAToken (body_token req) (mfaSecret user) (now env) with
      | None => (st, reject 500 "MFA verification failed")
      | Some false => (st, InvalidMfaToken)
      | Some true =>
        let st := with_users st
                    (updateOne (byIdString (userId req)) (setEnabled (now env)) (users st)) in
        (logAuditEvent (userId req) "MFA_ENABLED" (email user) st,
         accept "MFA enabled successfully" NoPayload)
      end
  end.

(** [router.post('/disable')] *)
Definition disable (env : Env) (req : Request) (st : State) : State * Response :=
  if negb (bool_decide (errors req = [])) then (st, validationFailed (errors req)) else
  match findOne (byIdString (userId req)) (users st) with
  | None => (st, reject 500 "MFA disable failed")
  | Some user =>
    if negb (mfaEnabled user) then
      (st, reject 400 "MFA is not enabled for this account")
    else
      match verifyMFAToken (body_token req) (mfaSecret user) (now env) with
      | None => (st, reject 500 "MFA disable failed")
      | Some false => (st, InvalidMfaToken)
      | Some true =>
        let st := with_users st
                    (updateOne (byIdString (userId req)) (setDisabled (now env)) (users st)) in
        (logAuditEvent (userId req) "MFA_DISABLED" (email user) st,
         accept "MFA disabled successfully" NoPayload)
      end
  end.

(** [router.post('/verify')] *)
Definition verify (env : Env) (req : Request) (st : State) : State * Response :=
  if negb (bool_decide (errors req = [])) then (st, validationFailed (errors req)) else
  match findOne (byEmail (body_email req)) (users st) with
  | None => (st, reject 404 "User not found")
  | Some user =>
    if negb (mfaEnabled user) then
      (st, reject 400 "MFA is not enabled for this account")
    else
      match verifyMFAToken (body_token req) (mfaSecret user) (now env) with
      | None => (st, reject 500 "MFA verification failed")
      | Some false =>
        (logAuditEvent (toString (_id user)) "MFA_VERIFICATION_FAILED" (body_email req) st,
         InvalidMfaToken)
      | Some true =>
        (logAuditEvent (toString (_id user)) "MFA_VERIFICATION_SUCCESS" (body_email req) st,
         accept "MFA verification successful" NoPayload)
      end
  end.

End Handlers.

(** [router.post('/verify-backup')]: lookup by email, update by
    [{ _id: user._id }]. *)
Definition verify_backup (env : Env) (req : Request) (st : State) : State * Response :=
  if negb (bool_decide (errors req = [])) then (st, validationFailed (errors req)) else
  match findOne (byEmail (body_email req)) (users st) with
  | None => (st, reject 404 "User not found")
  | Some user =>
    match mfaBackupCodes user with
    | Some codes =>
      if negb (mfaEnabled user) then (st, reject 400 "MFA backup codes not available") else
      if negb (verifyBackupCode (body_backupCode req) codes) then
        (logAuditEvent (toString (_id user)) "MFA_BACKUP_VERIFICATION_FAILED" (body_email req) st,
         InvalidBackupCode)
      else
        let updatedBackupCodes :=
          List.filter (fun code => negb (String.eqb code (JS.toUpperCase (body_backupCode req))))
                      codes in
        let st := with_users st
                    (updateOne (byId (_id user)) (setBackupCodes updatedBackupCodes (now env))
                               (users st)) in
        (logAuditEvent (toString (_id user)) "MFA_BACKUP_VERIFICATION_SUCCESS" (body_email req) st,
         accept "Backup code verification successful" NoPayload)
    | None => (st, reject 400 "MFA backup codes not available")
    end
  end.

End Mfa.

(** ** Vocabulary of the statements *)

Module Props.
Import Security.

Definition b2n (b : bool) : N := if b then 1 else 0.

(** The five checks of the strength policy, as propositions. *)
Definition lengthOk (pw : string) : Prop :=
  8 <= strLength pw /\ strLength pw <= 16.
Definition hasLower (pw : string) : Prop :=
  exists c, In c (list_ascii_of_string pw) /\ 97 <= JS.code c <= 122.
Definition hasUpper (pw : string) : Prop :=
  exists c, In c (list_ascii_of_string pw) /\ 65 <= JS.code c <= 90.
Definition hasDigit (pw : string) : Prop :=
  exists c, In c (list_ascii_of_string pw) /\ 48 <= JS.code c <= 57.
Definition hasSpecial (pw : string) : Prop :=
  exists c, In c (list_ascii_of_string pw) /\ In c (list_ascii_of_string "@$!%*?&").

(** A handler outcome that refuses the request and changes nothing. *)
Definition rejected {S R : Type} (succ : R -> bool) (st : S) (out : S * R) : Prop :=
  fst out = st /\ succ (snd out) = false.

(** A well-formed login for email [e] that passes the bot check and
    carries a password not matching the stored hash [pwHash]. *)
Definition wrongCall `{Auth.Bcrypt} (e pwHash : string) (c : Auth.Env * Auth.Request)
  : Prop :=
  Auth.errors (snd c) = [] /\ Auth.captcha_isValid (fst c) = true
  /\ Auth.body_email (snd c) = e
  /\ Auth.comparePassword (Auth.body_password (snd c)) pwHash = false.

(** A handler that leaves the lockout fields of every stored user as
    they were. *)
Definition keepsCounter (handler : Auth.Env -> Auth.Request -> Auth.State
                                   -> Auth.State * Auth.Response) : Prop :=
  forall env req st e u,
    Store.findOne (Auth.byEmail e) (Auth.users st) = Some u ->
    exists u',
      Store.findOne (Auth.byEmail e) (Auth.users (fst (handler env req st))) = Some u'
      /\ Auth.loginAttempts u' = Auth.loginAttempts u
      /\ Auth.lockUntil u' = Auth.lockUntil u.

(** The submitted one-time code is the stored one and has not expired. *)
Definition codeMatches (st : Auth.State) (env : Auth.Env) (req : Auth.Request) : Prop :=
  exists entry,
    Auth.otpStore st !! Auth.body_email req = Some entry
    /\ Auth.otp entry = Auth.body_otp req
    /\ Auth.now env <= Auth.expiry entry.

(** No code is stored for the email, or the stored one differs from the
    submitted one, or its expiry has passed. *)
Definition codeInvalid (st : Auth.State) (env : Auth.Env) (req : Auth.Request) : Prop :=
  Auth.otpStore st !! Auth.body_email req = None
  \/ exists entry,
       Auth.otpStore st !! Auth.body_email req = Some entry
       /\ (Auth.otp entry <> Auth.body_otp req \/ Auth.expiry entry < Auth.now env).

(** Password history ordered most-recent first. *)
Definition mostRecentFirst (l : list Auth.HistoryItem) : Prop :=
  StronglySorted (fun a b => Auth.hi_createdAt b <= Auth.hi_createdAt a) l.

(** The record [u'] that a successful password update at time [t]
    makes of [u]: the new hash is current and heads the history, at most
    four earlier entries follow in their old order, so the history holds
    at most five and stays ordered most-recent first. *)
Definition updatedRecord `{Auth.Bcrypt} (env : Auth.Env) (t : N) (req : Auth.Request)
    (u u' : Auth.User) : Prop :=
  let hashed := Auth.hashPassword (Auth.body_password req) (Auth.salt env) in
  Auth.password u' = hashed
  /\ Auth.historyOf u'
     = {| Auth.hi_password := hashed; Auth.hi_createdAt := t |}
         :: firstn 4 (Auth.historyOf u)
  /\ (List.length (Auth.historyOf u') <= 5)%nat
  /\ (mostRecentFirst (Auth.historyOf u) ->
      (forall x, In x (Auth.historyOf u) -> Auth.hi_createdAt x <= t) ->
      mostRecentFirst (Auth.historyOf u')).

End Props.

(** ** Concrete data for the worked scenarios *)

Module Sample.
Import Auth.

(** A transparent stand-in for bcrypt: the hash is the salted text. *)
Definition toyBcrypt : Bcrypt :=
  {| hashPassword := fun pw salt => salt ++ "$" ++ pw;
     comparePassword := fun pw h => String.eqb h ("$" ++ pw) |}.

Definition ann : User :=
  {| _id := 1; email := "a@x.com"; name := "Ann"; role := "jobseeker";
     company := None; password := "$Str0ng!Pw"; isVerified := true;
     verificationOTP := None; otpExpiry := None;
     passwordHistory := Some [{| hi_password := "$Str0ng!Pw"; hi_createdAt := 10 |}];
     loginAttempts := Some 0; lockUntil := None; lastLogin := None;
     createdAt := 10; updatedAt := 20; verifiedAt := Some 20 |}.

(** The same account before its email is verified. *)
Definition annUnverified : User :=
  {| _id := 1; email := "a@x.com"; name := "Ann"; role := "jobseeker";
     company := None; password := "$Str0ng!Pw"; isVerified := false;
     verificationOTP := Some "123456"; otpExpiry := Some 600010;
     passwordHistory := Some [{| hi_password := "$Str0ng!Pw"; hi_createdAt := 10 |}];
     loginAttempts := Some 0; lockUntil := None; lastLogin := None;
     createdAt := 10; updatedAt := 10; verifiedAt := None |}.

Definition st0 : State :=
  {| users := [ann]; otpStore := ∅; passwordResetTokens := ∅; auditLog := [] |}.

Definition stUnverified : State :=
  {| users := [annUnverified];
     otpStore := {[ "a@x.com" := {| otp := "123456"; expiry := 600010; attempts := 0 |} ]};
     passwordResetTokens := ∅; auditLog := [] |}.

Definition stEmpty : State :=
  {| users := []; otpStore := ∅; passwordResetTokens := ∅; auditLog := [] |}.

Definition stReset : State :=
  {| users := [ann]; otpStore := ∅;
     passwordResetTokens :=
       {[ "tok" := {| rd_userId := Store.toString 1; rd_email := "a@x.com";
                      rd_expiry := 5000 |} ]};
     auditLog := [] |}.

(** A request environment whose first clock reading is [t]. *)
Definition envAt (t : N) (mail : bool) : Env :=
  {| now := t; later := t + 1; captcha_isValid := true; captcha_message := "";
     mail_success := mail; random_otp := "123456"; random_sessionId := "sid";
     random_resetToken := "tok"; salt := "" |}.

Definition request (e pw : string) : Request :=
  {| errors := []; body_email := e; body_name := "Ann"; body_password := pw;
     body_role := "jobseeker"; body_company := None; body_otp := "123456";
     body_token := "tok"; body_currentPassword := "Str0ng!Pw";
     req_user := Some {| userId := Store.toString 1; au_email := "a@x.com" |} |}.

Definition withOtp (code : string) (r : Request) : Request :=
  {| errors := errors r; body_email := body_email r; body_name := body_name r;
     body_password := body_password r; body_role := body_role r;
     body_company := body_company r; body_otp := code;
     body_token := body_token r; body_currentPassword := body_currentPassword r;
     req_user := req_user r |}.

(** The request as a router without the authentication middleware
    hands it to its routes: [req.user] is unset. *)
Definition withoutUser (r : Request) : Request :=
  {| errors := errors r; body_email := body_email r; body_name := body_name r;
     body_password := body_password r; body_role := body_role r;
     body_company := body_company r; body_otp := body_otp r;
     body_token := body_token r; body_currentPassword := body_currentPassword r;
     req_user := None |}.

(** Four, then a fifth, login with a wrong password. *)
Definition fourWrong : list (Env * Request) :=
  List.map (fun t => (envAt t true, request "a@x.com" "wrong")) [100; 200; 300; 400].
Definition fifthWrong : Env * Request := (envAt 500 true, request "a@x.com" "wrong").

(** The state after the five failures: locked until 500 + 1 + 900000. *)
Definition stLocked : State := fst (@logins toyBcrypt (fourWrong ++ [fifthWrong]) st0).

End Sample.

Module MfaSample.
Import Mfa.

(** A stand-in for the TOTP library: the code 123456 is the valid one
    for every secret, and a missing secret makes the call throw. *)
Definition toyTotp : Totp :=
  {| verifyMFAToken := fun token secret _ =>
       match secret with
       | Some _ => Some (String.eqb token "123456")
       | None => None
       end |}.

Definition randomSample (i : nat) : list N :=
  [N.of_nat i + 10; 171; 205; 239].



(** An MFA-enabled user holding the generated backup codes. *)
Definition bobEnabled : User :=
  {| _id := 7; email := "b@x.com"; mfaEnabled := true; mfaSetupPending := false;
     mfaSecret := None;
     mfaBackupCodes := Some (Security.generateBackupCodes randomSample);
     updatedAt := 60 |}.

Definition stEnabled : State := {| users := [bobEnabled]; auditLog := [] |}.

Definition envAt (t : N) : Env :=
  {| now := t; random_secret := "JBSWY3DPEHPK3PXP"; qrCode := None;
     randomBytes := randomSample |}.

Definition request (token backupCode : string) : Request :=
  {| errors := []; userId := Store.toString 7; body_email := "b@x.com"; body_token := token;
     body_backupCode := backupCode |}.

End MfaSample.

(** ** The remaining routes of job-portal-server/routes/auth.js *)

Module AuthRest.
Import Security Store Auth.

(** [res.json({ success: false, ... })] without a status: 200. *)
Definition TokenInvalid : Response :=
  {| status := 200; success := false;
     message := Some "Invalid or expired reset token"; payload := NoPayload |}.

(** [router.post('/validate-reset-token')] *)
Definition validate_reset_token (env : Env) (req : Request) (st : State)
  : State * Response :=
  if negb (bool_decide (errors req = [])) then (st, validationFailed (errors req)) else
  match passwordResetTokens st !! body_token req with
  | None => (st, TokenInvalid)
  | Some resetData =>
    if rd_expiry resetData <? now env then (st, TokenInvalid)
    else (st, accept 200 "Reset token is valid" NoPayload)
  end.

(** [router.post('/logout')]: [req.user?.userId] decides whether the event
    is written; the audit entry carries [req.user.email]. *)
Definition logout (env : Env) (req : Request) (st : State) : State * Response :=
  let st := match req_user req with
            | Some caller => logAuditEvent (userId caller) "LOGOUT" (au_email caller) st
            | None => st
            end in
  (st, accept 200 "Logout successful" NoPayload).

(** [$set: updateData], with [updateData = { updatedAt }] extended by
    [name] when it is truthy and by [company] when it is not [undefined]. *)
Definition setProfile (newName : string) (newCompany : option string) (t : N) (u : User)
  : User :=
  {| _id := _id u; email := email u;
     name := if String.eqb newName "" then name u else newName;
     role := role u;
     company := match newCompany with Some c => Some c | None => company u end;
     password := password u; isVerified := isVerified u;
     verificationOTP := verificationOTP u; otpExpiry := otpExpiry u;
     passwordHistory := passwordHistory u;
     loginAttempts := loginAttempts u; lockUntil := lockUntil u;
     lastLogin := lastLogin u; createdAt := createdAt u; updatedAt := t;
     verifiedAt := verifiedAt u |}.

(** [router.put('/profile')].  An absent [name] is the empty [body_name];
    the update is addressed by [{ _id: userId }] with the string of
    [req.user], and [matchedCount === 0] is the case of no document
    matching it.  The audit entry has no email detail. *)
Definition put_profile (env : Env) (req : Request) (st : State) : State * Response :=
  if negb (bool_decide (errors req = [])) then (st, validationFailed (errors req)) else
  match req_user req with
  | None => (st, reject 500 "Failed to update profile")
  | Some caller =>
    match findOne (byIdString (userId caller)) (users st) with
    | None => (st, NotFoundError)
    | Some _ =>
      let st := with_users st
                  (updateOne (byIdString (userId caller))
                             (setProfile (body_name req) (body_company req) (now env))
                             (users st)) in
      (logAuditEvent (userId caller) "PROFILE_UPDATED" "" st,
       accept 200 "Profile updated successfully" NoPayload)
    end
  end.

End AuthRest.

(** ** The remaining routes of getSomeJobServer/routes/mfa.js *)

Module MfaRest.
Import Security Store Mfa.

(** The body of [GET /status]; [StatusFailed] is the 500 answer of the
    [catch] when the document is missing. *)
Inductive StatusReply :=
| StatusOk (enabled : bool) (backupCodesRemaining : nat)
| StatusFailed.

(** [router.get('/status')] *)
Definition status (req : Request) (st : State) : StatusReply :=
  match findOne (byIdString (userId req)) (users st) with
  | None => StatusFailed
  | Some user =>
    StatusOk (mfaEnabled user)
             (match mfaBackupCodes user with
              | Some codes => List.length codes
              | None => 0%nat
              end)
  end.

(** The answer of [/regenerate-backup-codes]: the new codes on success. *)
Inductive RegenerateReply :=
| Regenerated (backupCodes : list string)
| Refused (r : Response).

(** [router.post('/regenerate-backup-codes')] *)
Definition regenerate_backup_codes (env : Env) (req : Request) (st : State)
  : State * RegenerateReply :=
  match findOne (byIdString (userId req)) (users st) with
  | None => (st, Refused (reject 500 "Failed to regenerate backup codes"))
  | Some user =>
    if negb (mfaEnabled user) then
      (st, Refused (reject 400 "MFA is not enabled for this account"))
    else
      let newBackupCodes := generateBackupCodes (randomBytes env) in
      let st := with_users st
                  (updateOne (byIdString (userId req)) (setBackupCodes newBackupCodes (now env))
                             (users st)) in
      (logAuditEvent (userId req) "MFA_BACKUP_CODES_REGENERATED" (email user) st,
       Regenerated newBackupCodes)
  end.


End MfaRest.

(** ** middleware/auth.js *)

Module Middleware.
Import Store Auth.

(** [jwt.verify] behind [verifyToken]: the decoded payload, or [null]. *)
Class Jwt := { verifyToken : string -> option Token }.

(** Where a request may carry its token. *)
Record HttpRequest := {
  authorization : option string;
  cookie_token : option string;
  query_token : option string
}.

(** Truthiness of a possibly absent string. *)
Definition truthy (s : option string) : bool :=
  match s with
  | Some x => negb (String.eqb x "")
  | None => false
  end.

(** [s.substring(n)] *)
Fixpoint substringFrom (n : nat) (s : string) : string :=
  match n, s with
  | O, _ => s
  | S n', String _ s' => substringFrom n' s'
  | S _, EmptyString => EmptyString
  end.

(** [authHeader && authHeader.startsWith('Bearer ')] then
    [authHeader.substring(7)], else [null]. *)
Definition bearer (authHeader : option string) : option string :=
  match authHeader with
  | Some h => if String.prefix "Bearer " h then Some (substringFrom 7 h) else None
  | None => None
  end.

(** The three [if]s that pick the token: header, then cookie, then query. *)
Definition extractToken (r : HttpRequest) : option string :=
  let token := bearer (authorization r) in
  let token := if negb (truthy token) && truthy (cookie_token r)
               then cookie_token r else token in
  let token := if negb (truthy token) && truthy (query_token r)
               then query_token r else token in
  token.

(** [req.user] *)
Record ReqUser := {
  ru_userId : string;
  ru_email : string;
  ru_name : string;
  ru_role : string;
  ru_company : option string;
  ru_sessionId : string
}.

Inductive Outcome :=
| Next (user : ReqUser)
| Respond (r : Response).

Definition attach (user : User) (decoded : Token) : ReqUser :=
  {| ru_userId := toString (_id user); ru_email := email user; ru_name := name user;
     ru_role := role user; ru_company := company user;
     ru_sessionId := tk_sessionId decoded |}.

(** [authenticateUser]; the user is looked up by [{ _id: decoded.userId }],
    the string claim of the token. *)
Definition authenticateUser `{Jwt} (r : HttpRequest) (us : list User) : Outcome :=
  let token := extractToken r in
  if negb (truthy token) then Respond (reject 401 "Authentication required") else
  match verifyToken (default "" token) with
  | None => Respond (reject 401 "Invalid or expired token")
  | Some decoded =>
    match findOne (byIdString (tk_userId decoded)) us with
    | None => Respond (reject 401 "User not found")
    | Some user =>
      if negb (isVerified user) then Respond (reject 401 "Email not verified")
      else Next (attach user decoded)
    end
  end.

(** [optionalAuth]: header and cookie only; [None] when [req.user] stays
    unset.  It always calls [next()]. *)
Definition optionalAuth `{Jwt} (r : HttpRequest) (us : list User) : option ReqUser :=
  let token := bearer (authorization r) in
  let token := if negb (truthy token) && truthy (cookie_token r)
               then cookie_token r else token in
  if negb (truthy token) then None else
  match verifyToken (default "" token) with
  | None => None
  | Some decoded =>
    match findOne (byIdString (tk_userId decoded)) us with
    | Some user => if isVerified user then Some (attach user decoded) else None
    | None => None
    end
  end.

(** [requireRole(roles)]: [None] is [next()]. *)
Definition requireRole (roles : list string) (user : option ReqUser) : option Response :=
  match user with
  | None => Some (reject 401 "Authentication required")
  | Some u =>
    if negb (JS.includes roles (ru_role u)) then Some (reject 403 "Insufficient permissions")
    else None
  end.

End Middleware.

(** ** The CSRF token middleware (module-level [csrfTokens] map) *)

Module Csrf.

Record Entry := { createdAt : N; ip : string }.

Definition CsrfFailed : Auth.Response := Auth.reject 403 "CSRF token validation failed".

(** [generateToken]: a fresh random token is stored with the time and the
    caller's address (and sent back in the [X-CSRF-Token] header). *)
Definition generateToken (random : string) (now : N) (addr : string)
    (csrfTokens : gmap string Entry) : gmap string Entry :=
  <[random := {| createdAt := now; ip := addr |}]> csrfTokens.

Definition validateCSRFToken (token : string) (csrfTokens : gmap string Entry) : bool :=
  bool_decide (is_Some (csrfTokens !! token)).

(** [csrfProtection]: [None] is [next()].  The token is
    [req.headers['x-csrf-token'] || req.body._csrf]. *)
Definition csrfProtection (method path : string) (header body : option string)
    (csrfTokens : gmap string Entry) : gmap string Entry * option Auth.Response :=
  if String.eqb method "GET" then (csrfTokens, None) else
  if String.eqb path "/api/auth/login" || String.eqb path "/api/auth/register"
  then (csrfTokens, None) else
  let token := if Middleware.truthy header then header else body in
  if negb (Middleware.truthy token)
     || negb (validateCSRFToken (default "" token) csrfTokens)
  then (csrfTokens, Some CsrfFailed)
  else (delete (default "" token) csrfTokens, None).

(** The hourly sweep: entries with [now - createdAt > 60 * 60 * 1000]
    are deleted (on naturals: [createdAt + 3600000 < now]). *)
Definition cleanup (now : N) (csrfTokens : gmap string Entry) : gmap string Entry :=
  filter (fun kv => negb (createdAt (snd kv) + 60 * 60 * 1000 <? now) = true) csrfTokens.

End Csrf.

(** ** Password rules and password expiry of config/security.js *)

Module Rules.
Import Security.

(** The code units below 256 that have a lower-case form: A-Z and the
    Latin-1 capitals (192-222 without the multiplication sign, 215). *)
Definition hasLowerForm (c : ascii) : bool :=
  JS.isUpper c
  || ((192 <=? JS.code c) && (JS.code c <=? 222) && negb (JS.code c =? 215)).

Definition lowerChar (c : ascii) : ascii :=
  if hasLowerForm c then ascii_of_N (JS.code c + 32) else c.

(** [s.toLowerCase()] on strings of code units below 256. *)
Fixpoint toLowerCase (s : string) : string :=
  match s with
  | EmptyString => EmptyString
  | String c s' => String (lowerChar c) (toLowerCase s')
  end.

(** [s.includes(sub)] on strings: [sub] occurs somewhere in [s]. *)
Fixpoint strIncludes (s sub : string) : bool :=
  String.prefix sub s
  || match s with
     | EmptyString => false
     | String _ s' => strIncludes s' sub
     end.

(** [s.split('@')[0]]: the text before the first [@]. *)
Fixpoint beforeAt (s : string) : string :=
  match s with
  | EmptyString => EmptyString
  | String c s' => if Ascii.eqb c "@" then EmptyString else String c (beforeAt s')
  end.

(** A line terminator, which [.] in a regular expression does not match. *)
Definition isLineTerminator (c : ascii) : bool :=
  (JS.code c =? 10) || (JS.code c =? 13).

Fixpoint firstLine (l : list ascii) : list ascii :=
  match l with
  | [] => []
  | c :: l' => if isLineTerminator c then [] else c :: firstLine l'
  end.

(** [.matches(/^(?=.*[cls])/)]: a character of the class occurs before the
    first line terminator. *)
Definition matchesAhead (cls : ascii -> bool) (s : string) : bool :=
  existsb cls (firstLine (list_ascii_of_string s)).

(** The [.custom] validator: with a truthy [req.body.email], the password
    must not contain, ignoring case, the text before the email's [@]. *)
Definition containsUsername (value : string) (email : option string) : bool :=
  match email with
  | Some e => negb (String.eqb e "")
              && strIncludes (toLowerCase value) (beforeAt (toLowerCase e))
  | None => false
  end.

Definition failing (ok : bool) (msg : string) : list string :=
  if ok then [] else [msg].

(** [passwordValidationRules]: the messages of the validators of the chain
    that [value] fails, in the order of the chain.  [isLength] counts a
    surrogate pair once; a string of code units below 256 holds none, so
    the count is the length. *)
Definition passwordValidationRules (value : string) (email : option string) : list string :=
  (failing ((MIN_LENGTH <=? strLength value) && (strLength value <=? MAX_LENGTH))
           "Password must be between 8 and 16 characters"
   ++ failing (matchesAhead JS.isLower value)
              "Password must contain at least one lowercase letter"
   ++ failing (matchesAhead JS.isUpper value)
              "Password must contain at least one uppercase letter"
   ++ failing (matchesAhead JS.isDigit value)
              "Password must contain at least one number"
   ++ failing (matchesAhead JS.isSpecial value)
              "Password must contain at least one special character (@$!%*?&)"
   ++ failing (negb (containsUsername value email))
              "Password cannot contain your email username")%list.

Definition EXPIRY_DAYS : Z := 90.
Definition WARNING_DAYS : Z := 7.

Record Expiry := {
  isExpired : bool;
  daysUntilExpiry : Z;
  shouldWarn : bool
}.

(** [checkPasswordExpiry]; [now] and [created] are the millisecond values
    of [new Date()] and [new Date(passwordCreatedAt)]. *)
Definition checkPasswordExpiry (now created : Z) : Expiry :=
  let daysSinceCreation := ((now - created) / (1000 * 60 * 60 * 24))%Z in
  {| isExpired := (EXPIRY_DAYS <=? daysSinceCreation)%Z;
     daysUntilExpiry := (EXPIRY_DAYS - daysSinceCreation)%Z;
     shouldWarn := (EXPIRY_DAYS - WARNING_DAYS <=? daysSinceCreation)%Z |}.

End Rules.

(** ** Invariants of the server state *)

Module Invariants.
Import Auth.

Definition Handler : Type := Env -> Request -> State -> State * Response.

(** No two documents share an [_id], and no two share an [email]. *)
Definition uniqueKeys (st : State) : Prop :=
  NoDup (List.map _id (users st)) /\ NoDup (List.map email (users st)).

(** The history of a user holds at most five entries and its first entry
    carries the current password hash. *)
Definition historyOk (u : User) : Prop :=
  (List.length (historyOf u) <= 5)%nat
  /\ exists h rest, historyOf u = h :: rest /\ hi_password h = password u.

Definition historiesOk (st : State) : Prop := List.Forall historyOk (users st).

Definition preserves (P : State -> Prop) (h : Handler) : Prop :=
  forall env req st, P st -> P (fst (h env req st)).

(** The fields of a document that only the credential routes may change. *)
Definition credentials (u : User)
  : string * string * bool * option (list HistoryItem) * option N * option N :=
  (email u, password u, isVerified u, passwordHistory u, loginAttempts u, lockUntil u).

End Invariants.

(** ** Concrete data for the further scenarios *)

Module MoreSamples.
Import Auth.

(** A stand-in for the token library: only the token "good" verifies,
    and its payload claims another email and role than the stored ones. *)
Definition toyJwt : Middleware.Jwt :=
  {| Middleware.verifyToken := fun t =>
       if String.eqb t "good"
       then Some {| tk_userId := Store.toString 1; tk_email := "forged@x.com";
                    tk_role := "employer";
                    tk_sessionId := "sid" |}
       else None |}.

Definition bearerGood : Middleware.HttpRequest :=
  {| Middleware.authorization := Some "Bearer good";
     Middleware.cookie_token := Some "other";
     Middleware.query_token := None |}.

Definition cookieOnly : Middleware.HttpRequest :=
  {| Middleware.authorization := Some "Bearer ";
     Middleware.cookie_token := Some "good";
     Middleware.query_token := Some "ignored" |}.

Definition csrfSample : gmap string Csrf.Entry :=
  {[ "t1" := {| Csrf.createdAt := 1000; Csrf.ip := "10.0.0.1" |} ]}.

(** A profile update that renames the caller and leaves the company. *)
Definition renameRequest : Request :=
  {| errors := []; body_email := ""; body_name := "Anna"; body_password := "";
     body_role := ""; body_company := None; body_otp := ""; body_token := "";
     body_currentPassword := "";
     req_user := Some {| userId := Store.toString 1; au_email := "a@x.com" |} |}.

(** Two accounts without MFA. *)
Definition bobFresh : Mfa.User :=
  {| Mfa._id := 7; Mfa.email := "b@x.com"; Mfa.mfaEnabled := false;
     Mfa.mfaSetupPending := false; Mfa.mfaSecret := None; Mfa.mfaBackupCodes := None;
     Mfa.updatedAt := 1 |}.

Definition carol : Mfa.User :=
  {| Mfa._id := 8; Mfa.email := "c@x.com"; Mfa.mfaEnabled := false;
     Mfa.mfaSetupPending := false; Mfa.mfaSecret := None; Mfa.mfaBackupCodes := None;
     Mfa.updatedAt := 1 |}.

Definition stTwo : Mfa.State := {| Mfa.users := [bobFresh; carol]; Mfa.auditLog := [] |}.

End MoreSamples.

(** ** Lemmas on the document store *)

Section StoreLemmas.
Context {Doc : Type}.
Implicit Types (q : Doc -> bool) (upd : Doc -> Doc) (c : list Doc).

Lemma findOne_updateOne_hit q upd c d :
  Store.findOne q c = Some d ->
  q (upd d) = true ->
  Store.findOne q (Store.updateOne q upd c) = Some (upd d).
Proof.
  unfold Store.findOne. induction c as [|x c IH]; simpl; [discriminate|].
  destruct (q x) eqn:Hq; intros Hf Hu.
  - injection Hf as ->. simpl. now rewrite Hu.
  - simpl. rewrite Hq. auto.
Qed.

(** A query that the update cannot affect still finds its document:
    either untouched, or rewritten when it is the one the update hit. *)
Lemma findOne_updateOne_stable q q' upd c d :
  (forall x, q (upd x) = q x) ->
  Store.findOne q c = Some d ->
  Store.findOne q (Store.updateOne q' upd c) = Some d
  \/ (Store.findOne q (Store.updateOne q' upd c) = Some (upd d)
      /\ Store.findOne q' c = Some d).
Proof.
  unfold Store.findOne. intros Hst. induction c as [|x c IH]; simpl; [discriminate|].
  destruct (q' x) eqn:Hq'; simpl.
  - rewrite Hst. destruct (q x); intros Hf; [injection Hf as ->; auto | auto].
  - destruct (q x); intros Hf; [injection Hf as ->; auto | auto].
Qed.

Lemma findOne_app_l q c d x :
  Store.findOne q c = Some d -> Store.findOne q (c ++ [x]) = Some d.
Proof.
  unfold Store.findOne. induction c as [|y c IH]; simpl; [discriminate|].
  destruct (q y); auto.
Qed.

Lemma deleteOne_app_fresh q c x :
  (forall d, In d c -> q d = false) -> q x = true ->
  Store.deleteOne q (c ++ [x]) = c.
Proof.
  intros Hc Hx. induction c as [|y c IH]; simpl.
  - now rewrite Hx.
  - rewrite (Hc y (or_introl eq_refl)). f_equal. apply IH.
    intros d Hd. apply Hc. now right.
Qed.

Lemma freshId_above (id : Doc -> N) c d :
  In d c -> id d < Store.freshId id c.
Proof.
  unfold Store.freshId. induction c as [|y c IH]; simpl; [tauto|].
  intros [->|Hd]; [lia|]. specialize (IH Hd). lia.
Qed.

End StoreLemmas.

(** ** The strength function *)

Section Strength.
Import Security Props.

Lemma test_spec (cls : ascii -> bool) (pw : string) :
  JS.test cls pw = true <-> exists c, In c (list_ascii_of_string pw) /\ cls c = true.
Proof. unfold JS.test. apply existsb_exists. Qed.

Lemma range_spec (lo hi n : N) :
  (lo <=? n) && (n <=? hi) = true <-> lo <= n <= hi.
Proof. rewrite andb_true_iff, !N.leb_le. tauto. Qed.

Lemma chk_length_spec pw :
  chk_length (checks (checkPasswordStrength pw)) = true <-> lengthOk pw.
Proof. apply range_spec. Qed.

Lemma chk_lowercase_spec pw :
  chk_lowercase (checks (checkPasswordStrength pw)) = true <-> hasLower pw.
Proof.
  simpl. rewrite test_spec. unfold hasLower, JS.isLower.
  split; intros (c & Hc & Hr); exists c; split; auto; now apply range_spec.
Qed.

Lemma chk_uppercase_spec pw :
  chk_uppercase (checks (checkPasswordStrength pw)) = true <-> hasUpper pw.
Proof.
  simpl. rewrite test_spec. unfold hasUpper, JS.isUpper.
  split; intros (c & Hc & Hr); exists c; split; auto; now apply range_spec.
Qed.

Lemma chk_numbers_spec pw :
  chk_numbers (checks (checkPasswordStrength pw)) = true <-> hasDigit pw.
Proof.
  simpl. rewrite test_spec. unfold hasDigit, JS.isDigit.
  split; intros (c & Hc & Hr); exists c; split; auto; now apply range_spec.
Qed.

Lemma chk_special_spec pw :
  chk_special (checks (checkPasswordStrength pw)) = true <-> hasSpecial pw.
Proof.
  simpl. rewrite test_spec. unfold hasSpecial, JS.isSpecial.
  split; intros (c & Hc & Hr); exists c; split; auto.
  - apply existsb_exists in Hr as (x & Hx & He).
    apply Ascii.eqb_eq in He. now subst.
  - apply existsb_exists. exists c. split; auto. apply Ascii.eqb_refl.
Qed.

Lemma score_count pw :
  let r := checkPasswordStrength pw in
  score r = b2n (chk_length (checks r)) + b2n (chk_lowercase (checks r))
            + b2n (chk_uppercase (checks r)) + b2n (chk_numbers (checks r))
            + b2n (chk_special (checks r)).
Proof.
  unfold checkPasswordStrength. cbn [score checks values chk_length chk_lowercase
    chk_uppercase chk_numbers chk_special].
  destruct (_ && _), (JS.test JS.isLower pw), (JS.test JS.isUpper pw),
    (JS.test JS.isDigit pw), (JS.test JS.isSpecial pw); reflexivity.
Qed.

Lemma score_le_5 pw : score (checkPasswordStrength pw) <= 5.
Proof.
  rewrite score_count.
  destruct (chk_length _), (chk_lowercase _), (chk_uppercase _),
    (chk_numbers _), (chk_special _); simpl; lia.
Qed.

Lemma strength_class pw :
  let r := checkPasswordStrength pw in
  (strength r = weak <-> score r < 3)
  /\ (strength r = medium <-> score r = 3 \/ score r = 4)
  /\ (strength r = strong <-> score r = 5).
Proof.
  intros r. pose proof (score_le_5 pw) as Hle. fold r in Hle.
  assert (Hs : strength r =
               if score r <? 3 then weak else if score r <? 5 then medium else strong)
    by reflexivity.
  rewrite Hs. destruct (N.ltb_spec (score r) 3); [|destruct (N.ltb_spec (score r) 5)];
    repeat split; intros; try discriminate; try lia; try reflexivity.
Qed.

Lemma isValid_score pw :
  isValid (checkPasswordStrength pw) = true <-> score (checkPasswordStrength pw) = 5.
Proof. apply N.eqb_eq. Qed.

Lemma not_valid_below_5 pw :
  score (checkPasswordStrength pw) < 5 -> isValid (checkPasswordStrength pw) = false.
Proof.
  intros Hlt. destruct (isValid _) eqn:Hv; [|reflexivity].
  apply isValid_score in Hv. lia.
Qed.

End Strength.

(** ** Registration and the password policy *)

Section RegisterProofs.
Import Security Store Auth Props.
Context `{Bcrypt}.

Lemma errors_guard (l : list string) : negb (bool_decide (l = [])) = false <-> l = [].
Proof.
  rewrite negb_false_iff. apply bool_decide_eq_true.
Qed.

Lemma register_weak env req st :
  isValid (checkPasswordStrength (body_password req)) = false ->
  rejected success st (register env req st).
Proof.
  intros Hv. unfold rejected, register.
  destruct (negb (bool_decide _)); [split; reflexivity|].
  destruct (negb (captcha_isValid env)); [split; reflexivity|].
  rewrite Hv. split; reflexivity.
Qed.

Lemma reset_password_weak env req st :
  isValid (checkPasswordStrength (body_password req)) = false ->
  rejected success st (reset_password env req st).
Proof.
  intros Hv. unfold rejected, reset_password.
  destruct (negb (bool_decide _)); [split; reflexivity|].
  rewrite Hv. split; reflexivity.
Qed.

Lemma change_password_weak env req st :
  isValid (checkPasswordStrength (body_password req)) = false ->
  rejected success st (change_password env req st).
Proof.
  intros Hv. unfold rejected, change_password.
  destruct (negb (bool_decide _)); [split; reflexivity|].
  destruct (req_user req); [|split; reflexivity].
  rewrite Hv. split; reflexivity.
Qed.

(** C2. The strength score is the number of satisfied checks among the
    five (length in [8,16], a lowercase letter, an uppercase letter, a
    digit, a character of the special set); the password is weak below 3,
    medium at 3 or 4, strong at 5; and a password scoring below 5 is
    refused by register, reset-password and change-password alike, which
    leave the state as it was. *)
Theorem C2_strength_score_and_gate (pw : string) :
  let r := checkPasswordStrength pw in
  ((chk_length (checks r) = true <-> lengthOk pw)
   /\ (chk_lowercase (checks r) = true <-> hasLower pw)
   /\ (chk_uppercase (checks r) = true <-> hasUpper pw)
   /\ (chk_numbers (checks r) = true <-> hasDigit pw)
   /\ (chk_special (checks r) = true <-> hasSpecial pw))
  /\ score r = b2n (chk_length (checks r)) + b2n (chk_lowercase (checks r))
               + b2n (chk_uppercase (checks r)) + b2n (chk_numbers (checks r))
               + b2n (chk_special (checks r))
  /\ ((strength r = weak <-> score r < 3)
      /\ (strength r = medium <-> score r = 3 \/ score r = 4)
      /\ (strength r = strong <-> score r = 5))
  /\ (score r < 5 ->
      forall env req st, body_password req = pw ->
        rejected success st (register env req st)
        /\ rejected success st (reset_password env req st)
        /\ rejected success st (change_password env req st)).
Proof.
  intros r. split; [|split; [|split]].
  - pose proof (chk_length_spec pw). pose proof (chk_lowercase_spec pw).
    pose proof (chk_uppercase_spec pw). pose proof (chk_numbers_spec pw).
    pose proof (chk_special_spec pw). tauto.
  - apply score_count.
  - apply strength_class.
  - intros Hlt env req st <-. apply not_valid_below_5 in Hlt.
    split; [|split]; [apply register_weak | apply reset_password_weak
      | apply change_password_weak]; exact Hlt.
Qed.

Lemma byId_fresh (c : list User) (d : User) :
  In d c -> byId (freshId _id c) d = false.
Proof.
  intros Hd. unfold byId. apply N.eqb_neq.
  pose proof (freshId_above _id c d Hd). lia.
Qed.

(** C4. A registration that passes every check and inserts the record,
    but whose verification mail cannot be delivered, answers with the
    delivery error and removes the record again: the collection is as
    before and holds no document for that email. *)
Theorem C4_register_rollback env req st :
  errors req = [] ->
  captcha_isValid env = true ->
  isValid (checkPasswordStrength (body_password req)) = true ->
  findOne (byEmail (body_email req)) (users st) = None ->
  mail_success env = false ->
  snd (register env req st) = DeliveryError
  /\ users (fst (register env req st)) = users st
  /\ findOne (byEmail (body_email req)) (users (fst (register env req st))) = None.
Proof.
  intros He Hc Hv Hnone Hmail.
  assert (Hreg : snd (register env req st) = DeliveryError
                 /\ users (fst (register env req st)) = users st).
  { unfold register. apply errors_guard in He. rewrite He, Hc, Hv, Hnone, Hmail.
    cbn [negb fst snd users with_users with_otpStore]. split; [reflexivity|].
    apply deleteOne_app_fresh.
    - intros d Hd. now apply byId_fresh.
    - unfold byId. cbn [_id]. apply N.eqb_refl. }
  destruct Hreg as [Hr Hu]. rewrite Hu. auto.
Qed.

End RegisterProofs.

(** ** Login and the lockout *)

Section LoginProofs.
Import Security Store Auth Props.
Context `{Bcrypt}.

Lemma isLocked_future u t l :
  lockUntil u = Some l -> t < l -> isLocked u t = true.
Proof.
  intros Hl Hlt. unfold isLocked. rewrite Hl.
  apply andb_true_iff. split.
  - apply negb_true_iff, N.eqb_neq. lia.
  - now apply N.ltb_lt.
Qed.

Lemma isLocked_expired u t :
  (forall l, lockUntil u = Some l -> l <= t) -> isLocked u t = false.
Proof.
  intros Hl. unfold isLocked. destruct (lockUntil u) as [l|]; [|reflexivity].
  specialize (Hl l eq_refl). apply andb_false_iff. right. apply N.ltb_ge. lia.
Qed.

Lemma byEmail_setLoginFailure e n l u : byEmail e (setLoginFailure n l u) = byEmail e u.
Proof. reflexivity. Qed.

Lemma attemptsOf_setLoginFailure n l u : attemptsOf (setLoginFailure n l u) = n.
Proof. reflexivity. Qed.

Lemma byEmail_setLoginSuccess e t u : byEmail e (setLoginSuccess t u) = byEmail e u.
Proof. reflexivity. Qed.

Lemma findOne_byEmail_holds e c u :
  findOne (byEmail e) c = Some u -> byEmail e u = true.
Proof. intros Hf. now apply find_some in Hf. Qed.

(** A call made while the lock is in the future changes nothing. *)
Lemma login_locked env req st u l :
  errors req = [] -> captcha_isValid env = true ->
  findOne (byEmail (body_email req)) (users st) = Some u ->
  lockUntil u = Some l -> now env < l ->
  login env req st = (st, AccountLockedError).
Proof.
  intros He Hc Hf Hl Hlt. unfold login. apply errors_guard in He.
  rewrite He, Hc, Hf. cbn [negb]. now rewrite (isLocked_future u (now env) l).
Qed.

(** An unverified account with no lock in force: the call stops at the
    verification check and changes nothing. *)
Lemma login_unverified env req st u :
  errors req = [] -> captcha_isValid env = true ->
  findOne (byEmail (body_email req)) (users st) = Some u ->
  isVerified u = false ->
  (forall l, lockUntil u = Some l -> l <= now env) ->
  login env req st = (st, UnverifiedError).
Proof.
  intros He Hc Hf Hv Hl. unfold login. apply errors_guard in He.
  rewrite He, Hc, Hf, Hv. cbn [negb].
  unfold isLocked. destruct (lockUntil u) as [l|]; [|reflexivity].
  specialize (Hl l eq_refl). apply N.ltb_ge in Hl. rewrite Hl.
  now rewrite andb_false_r.
Qed.

(** The password-mismatch branch. *)
Lemma login_mismatch env req st u :
  errors req = [] -> captcha_isValid env = true ->
  findOne (byEmail (body_email req)) (users st) = Some u ->
  isLocked u (now env) = false -> isVerified u = true ->
  comparePassword (body_password req) (password u) = false ->
  let n := attemptsOf u + 1 in
  let lock := if 5 <=? n then Some (later env + 15 * 60 * 1000) else None in
  snd (login env req st) = InvalidCredentialsError
  /\ findOne (byEmail (body_email req)) (users (fst (login env req st)))
     = Some (setLoginFailure n lock u).
Proof.
  intros He Hc Hf Hlk Hv Hp n lock. unfold login. apply errors_guard in He.
  rewrite He, Hc, Hf, Hlk, Hv, Hp. cbn [negb fst snd users logAuditEvent with_users].
  split; [reflexivity|]. apply findOne_updateOne_hit; [exact Hf|].
  rewrite byEmail_setLoginFailure. eapply findOne_byEmail_holds; eauto.
Qed.

(** The success branch. *)
Lemma login_ok env req st u :
  errors req = [] -> captcha_isValid env = true ->
  findOne (byEmail (body_email req)) (users st) = Some u ->
  isLocked u (now env) = false -> isVerified u = true ->
  comparePassword (body_password req) (password u) = true ->
  snd (login env req st)
    = accept 200 "Login successful"
        (Session (generateToken u (random_sessionId env)) (publicView u))
  /\ findOne (byEmail (body_email req)) (users (fst (login env req st)))
     = Some (setLoginSuccess (later env) u).
Proof.
  intros He Hc Hf Hlk Hv Hp. unfold login. apply errors_guard in He.
  rewrite He, Hc, Hf, Hlk, Hv, Hp. cbn [negb fst snd users logAuditEvent with_users].
  split; [reflexivity|]. apply findOne_updateOne_hit; [exact Hf|].
  rewrite byEmail_setLoginSuccess. eapply findOne_byEmail_holds; eauto.
Qed.

(** A stored user answered with the invalid-credentials envelope went
    through the password-mismatch branch. *)
Lemma login_invalid_inv env req st u :
  findOne (byEmail (body_email req)) (users st) = Some u ->
  snd (login env req st) = InvalidCredentialsError ->
  errors req = [] /\ captcha_isValid env = true
  /\ isLocked u (now env) = false /\ isVerified u = true
  /\ comparePassword (body_password req) (password u) = false.
Proof.
  intros Hf. unfold login. rewrite Hf.
  destruct (negb (bool_decide (errors req = []))) eqn:He; [discriminate|].
  destruct (captcha_isValid env) eqn:Hc; cbn [negb]; [|discriminate].
  destruct (isLocked u (now env)) eqn:Hlk; [discriminate|].
  destruct (isVerified u) eqn:Hv; cbn [negb]; [|discriminate].
  destruct (comparePassword (body_password req) (password u)) eqn:Hp;
    cbn [negb]; [discriminate|].
  intros _. apply errors_guard in He. auto.
Qed.

Lemma login_failed_step env req st u :
  findOne (byEmail (body_email req)) (users st) = Some u ->
  snd (login env req st) = InvalidCredentialsError ->
  exists u1,
    findOne (byEmail (body_email req)) (users (fst (login env req st))) = Some u1
    /\ attemptsOf u1 = attemptsOf u + 1
    /\ lockUntil u1 =
         if 5 <=? attemptsOf u1 then Some (later env + 15 * 60 * 1000) else None.
Proof.
  intros Hf Hr. destruct (login_invalid_inv env req st u Hf Hr)
    as (He & Hc & Hlk & Hv & Hp).
  destruct (login_mismatch env req st u He Hc Hf Hlk Hv Hp) as [_ Hf1].
  eexists. split; [exact Hf1|]. split; reflexivity.
Qed.

Lemma logins_cons env req calls st :
  logins ((env, req) :: calls) st
  = (fst (logins calls (fst (login env req st))),
     snd (login env req st) :: snd (logins calls (fst (login env req st)))).
Proof.
  cbn [logins]. destruct (login env req st) as [st1 r]. cbn [fst snd].
  destruct (logins calls st1) as [st2 rs]. reflexivity.
Qed.

(** A run of failed logins for one email: the counter grows by the
    length of the run, and the last call decides the lock. *)
Lemma failed_run e env req (init : list (Env * Request)) :
  forall st u,
    findOne (byEmail e) (users st) = Some u ->
    Forall (fun c => body_email (snd c) = e) (init ++ [(env, req)]) ->
    Forall (eq InvalidCredentialsError) (snd (logins (init ++ [(env, req)]) st)) ->
    exists u',
      findOne (byEmail e) (users (fst (logins (init ++ [(env, req)]) st))) = Some u'
      /\ attemptsOf u' = attemptsOf u + N.of_nat (S (List.length init))
      /\ lockUntil u' =
           if 5 <=? attemptsOf u' then Some (later env + 15 * 60 * 1000) else None.
Proof.
  induction init as [|[env0 req0] init IH]; intros st u Hf Hmail Hres.
  - cbn [app] in *. rewrite logins_cons in *. cbn [logins fst snd] in *.
    apply Forall_inv in Hmail. cbn [snd] in Hmail. subst e.
    apply Forall_inv in Hres. symmetry in Hres.
    destruct (login_failed_step env req st u Hf Hres) as (u1 & Hf1 & Ha & Hl).
    exists u1. repeat split; auto.
  - rewrite <- app_comm_cons in *. rewrite logins_cons in *. cbn [fst snd] in *.
    pose proof (Forall_inv Hmail) as Hm0. cbn [snd] in Hm0. subst e.
    apply Forall_inv_tail in Hmail.
    pose proof (Forall_inv Hres) as Hr0. symmetry in Hr0.
    apply Forall_inv_tail in Hres.
    destruct (login_failed_step env0 req0 st u Hf Hr0) as (u1 & Hf1 & Ha & _).
    destruct (IH _ u1 Hf1 Hmail Hres) as (u' & Hf' & Ha' & Hl').
    exists u'. repeat split; auto. rewrite Ha', Ha. cbn [List.length]. lia.
Qed.

Lemma logins_app (a b : list (Env * Request)) :
  forall st,
    logins (a ++ b) st
    = (fst (logins b (fst (logins a st))),
       (snd (logins a st) ++ snd (logins b (fst (logins a st))))%list).
Proof.
  induction a as [|[env req] a IH]; intros st.
  - cbn [app logins fst snd]. now destruct (logins b st).
  - rewrite <- app_comm_cons, !logins_cons, IH. reflexivity.
Qed.

(** Wrong passwords that stay below the threshold: every call is
    answered with invalid credentials and the account stays unlocked. *)
Lemma wrong_run_below e (calls : list (Env * Request)) :
  forall st u,
    findOne (byEmail e) (users st) = Some u ->
    isVerified u = true -> lockUntil u = None ->
    attemptsOf u + N.of_nat (List.length calls) <= 4 ->
    Forall (wrongCall e (password u)) calls ->
    Forall (eq InvalidCredentialsError) (snd (logins calls st))
    /\ exists u',
         findOne (byEmail e) (users (fst (logins calls st))) = Some u'
         /\ isVerified u' = true /\ lockUntil u' = None
         /\ password u' = password u
         /\ attemptsOf u' = attemptsOf u + N.of_nat (List.length calls).
Proof.
  induction calls as [|[env req] calls IH]; intros st u Hf Hv Hl Hle Hall.
  - cbn [logins fst snd List.length]. split; [constructor|].
    exists u. repeat split; auto. cbn. lia.
  - rewrite logins_cons. cbn [fst snd].
    pose proof (Forall_inv Hall) as (He & Hc & Hm & Hp). cbn [fst snd] in *.
    apply Forall_inv_tail in Hall. subst e.
    assert (Hlk : isLocked u (now env) = false) by (unfold isLocked; now rewrite Hl).
    destruct (login_mismatch env req st u He Hc Hf Hlk Hv Hp) as [Hr Hf1].
    cbn [List.length] in Hle.
    assert (Hno : (5 <=? attemptsOf u + 1) = false) by (apply N.leb_gt; lia).
    rewrite Hno in Hf1.
    destruct (IH _ _ Hf1) as (Hrs & u' & Hf' & Hv' & Hl' & Hp' & Ha'); auto.
    + rewrite attemptsOf_setLoginFailure. lia.
    + split; [constructor; auto|]. exists u'. repeat split; auto.
      rewrite Ha', attemptsOf_setLoginFailure. cbn [List.length]. lia.
Qed.

End LoginProofs.

(** ** The lockout claims *)

Section LockoutClaims.
Import Security Store Auth Props.
Context `{Bcrypt}.

(** C1, as the code has it.  For every stored user: five consecutive
    logins that are each answered with the invalid-credentials error
    (the answer to a wrong password for a verified account that is not
    locked) leave lockUntil at the fifth call's clock reading plus 15
    minutes; a login made while lockUntil is in the future is answered
    with the account-locked error whatever the password, and changes
    nothing; a login with the correct password for a verified account
    once lockUntil has passed succeeds, sets the counter to zero and
    clears lockUntil.  An unverified account with no lock in force is
    answered with the unverified error at every well-formed login; the
    call changes nothing, so no number of failed logins locks it. *)
Theorem C1_lockout_cycle :
  (forall st e u init env5 req5,
      List.length init = 4%nat ->
      findOne (byEmail e) (users st) = Some u ->
      Forall (fun c => body_email (snd c) = e) (init ++ [(env5, req5)]) ->
      Forall (eq InvalidCredentialsError) (snd (logins (init ++ [(env5, req5)]) st)) ->
      exists u5,
        findOne (byEmail e) (users (fst (logins (init ++ [(env5, req5)]) st))) = Some u5
        /\ lockUntil u5 = Some (later env5 + 15 * 60 * 1000))
  /\ (forall env req st u l,
      errors req = [] -> captcha_isValid env = true ->
      findOne (byEmail (body_email req)) (users st) = Some u ->
      lockUntil u = Some l -> now env < l ->
      login env req st = (st, AccountLockedError))
  /\ (forall env req st u,
      errors req = [] -> captcha_isValid env = true ->
      findOne (byEmail (body_email req)) (users st) = Some u ->
      isVerified u = true ->
      (forall l, lockUntil u = Some l -> l <= now env) ->
      comparePassword (body_password req) (password u) = true ->
      success (snd (login env req st)) = true
      /\ exists u',
           findOne (byEmail (body_email req)) (users (fst (login env req st))) = Some u'
           /\ loginAttempts u' = Some 0 /\ lockUntil u' = None)
  /\ (forall env req st u,
      errors req = [] -> captcha_isValid env = true ->
      findOne (byEmail (body_email req)) (users st) = Some u ->
      isVerified u = false ->
      (forall l, lockUntil u = Some l -> l <= now env) ->
      login env req st = (st, UnverifiedError)).
Proof.
  split; [|split; [|split]]; [| | |apply login_unverified].
  - intros st e u init env5 req5 Hlen Hf Hmail Hres.
    destruct (failed_run e env5 req5 init st u Hf Hmail Hres) as (u5 & Hf5 & Ha & Hl).
    exists u5. split; [exact Hf5|]. rewrite Hl.
    destruct (N.leb_spec 5 (attemptsOf u5)); [reflexivity|]. rewrite Hlen in Ha. lia.
  - intros. eapply login_locked; eauto.
  - intros env req st u He Hc Hf Hv Hl Hp.
    apply isLocked_expired in Hl.
    destruct (login_ok env req st u He Hc Hf Hl Hv Hp) as [Hr Hf'].
    rewrite Hr. split; [reflexivity|]. eexists. split; [exact Hf'|]. split; reflexivity.
Qed.

(** C7, as the code has it.  Against a verified, unlocked account whose
    counter is zero, each of five logins with a wrong password, the
    fifth included, is answered with the invalid-credentials envelope
    (status 401), not with the account-locked one; the fifth sets
    lockUntil as a side effect, and it is the next login inside the lock
    window that is answered with the account-locked error. *)
Theorem C7_fifth_failure_is_invalid_credentials :
  forall st e u init env5 req5,
    List.length init = 4%nat ->
    findOne (byEmail e) (users st) = Some u ->
    isVerified u = true -> attemptsOf u = 0 -> lockUntil u = None ->
    Forall (wrongCall e (password u)) (init ++ [(env5, req5)]) ->
    let out := logins (init ++ [(env5, req5)]) st in
    Forall (eq InvalidCredentialsError) (snd out)
    /\ (exists u5, findOne (byEmail e) (users (fst out)) = Some u5
                   /\ attemptsOf u5 = 5
                   /\ lockUntil u5 = Some (later env5 + 15 * 60 * 1000))
    /\ (forall env6 req6,
          errors req6 = [] -> captcha_isValid env6 = true -> body_email req6 = e ->
          now env6 < later env5 + 15 * 60 * 1000 ->
          login env6 req6 (fst out) = (fst out, AccountLockedError)).
Proof.
  intros st e u init env5 req5 Hlen Hf Hv Ha Hl Hall out.
  apply Forall_app in Hall as [Hinit Hlast].
  apply Forall_inv in Hlast. destruct Hlast as (He5 & Hc5 & Hm5 & Hp5).
  cbn [fst snd] in *.
  assert (Hle : attemptsOf u + N.of_nat (List.length init) <= 4)
    by (rewrite Ha, Hlen; cbn; lia).
  destruct (wrong_run_below e init st u Hf Hv Hl Hle Hinit)
    as (Hrs & u4 & Hf4 & Hv4 & Hl4 & Hp4 & Ha4).
  subst out. rewrite logins_app. cbn [fst snd]. rewrite logins_cons.
  cbn [logins fst snd]. set (st4 := fst (logins init st)) in *.
  assert (Hlk : isLocked u4 (now env5) = false) by (unfold isLocked; now rewrite Hl4).
  rewrite <- Hp4 in Hp5. subst e.
  destruct (login_mismatch env5 req5 st4 u4 He5 Hc5 Hf4 Hlk Hv4 Hp5) as [Hr5 Hf5].
  assert (Hn : attemptsOf u4 + 1 = 5) by (rewrite Ha4, Ha, Hlen; reflexivity).
  rewrite Hn in Hf5. change (5 <=? 5) with true in Hf5. cbv iota in Hf5.
  split; [|split].
  - apply Forall_app_2; [exact Hrs|]. constructor; [now rewrite Hr5 | constructor].
  - eexists. split; [exact Hf5|]. split; reflexivity.
  - intros env6 req6 He6 Hc6 Hm6 Hlt. rewrite <- Hm6 in Hf5.
    eapply login_locked; eauto.
Qed.

(** Within [/login], the counter of a stored user goes down only on
    success. *)
Lemma login_counter env req st e u :
  findOne (byEmail e) (users st) = Some u ->
  exists u',
    findOne (byEmail e) (users (fst (login env req st))) = Some u'
    /\ (success (snd (login env req st)) = false -> attemptsOf u <= attemptsOf u')
    /\ (success (snd (login env req st)) = true -> body_email req = e ->
        loginAttempts u' = Some 0 /\ lockUntil u' = None).
Proof.
  intros Hf. unfold login.
  destruct (negb (bool_decide (errors req = [])));
    [exists u; cbn; repeat split; auto; try lia; discriminate|].
  destruct (negb (captcha_isValid env));
    [exists u; cbn; repeat split; auto; try lia; discriminate|].
  destruct (findOne (byEmail (body_email req)) (users st)) as [user|] eqn:Hu;
    [|exists u; cbn; repeat split; auto; try lia; discriminate].
  destruct (isLocked user (now env));
    [exists u; cbn; repeat split; auto; try lia; discriminate|].
  destruct (negb (isVerified user));
    [exists u; cbn; repeat split; auto; try lia; discriminate|].
  destruct (negb (comparePassword (body_password req) (password user)));
    cbn [fst snd users logAuditEvent with_users].
  - match goal with |- context [updateOne ?q ?f _] =>
      destruct (findOne_updateOne_stable (byEmail e) q f (users st) u
                  (fun x => eq_refl) Hf) as [Hs | [Hs Hq]] end.
    + exists u. split; [exact Hs|]. split; [lia | discriminate].
    + rewrite Hu in Hq. injection Hq as ->. eexists. split; [exact Hs|].
      rewrite attemptsOf_setLoginFailure. split; [lia | discriminate].
  - match goal with |- context [updateOne ?q ?f _] =>
      destruct (findOne_updateOne_stable (byEmail e) q f (users st) u
                  (fun x => eq_refl) Hf) as [Hs | [Hs Hq]] end.
    + exists u. split; [exact Hs|]. split; [discriminate|].
      intros _ He. subst e. rewrite Hu in Hf. injection Hf as ->.
      rewrite (findOne_updateOne_hit _ _ _ _ Hu) in Hs.
      * injection Hs as Hs. rewrite <- Hs. split; reflexivity.
      * rewrite byEmail_setLoginSuccess. eapply findOne_byEmail_holds; eauto.
    + eexists. split; [exact Hs|]. split; [discriminate|]. intros _ _. split; reflexivity.
Qed.

Lemma keep_updateOne (q' : User -> bool) (upd : User -> User) c e u :
  (forall x, byEmail e (upd x) = byEmail e x) ->
  (forall x, loginAttempts (upd x) = loginAttempts x) ->
  (forall x, lockUntil (upd x) = lockUntil x) ->
  findOne (byEmail e) c = Some u ->
  exists u',
    findOne (byEmail e) (updateOne q' upd c) = Some u'
    /\ loginAttempts u' = loginAttempts u /\ lockUntil u' = lockUntil u.
Proof.
  intros Hq Ha Hl Hf.
  destruct (findOne_updateOne_stable (byEmail e) q' upd c u Hq Hf) as [Hs | [Hs _]];
    eexists; (split; [exact Hs|]); auto.
Qed.

Ltac split_guards :=
  repeat match goal with
         | |- context [if ?b then _ else _] => destruct b eqn:?
         | |- context [match ?x with Some _ => _ | None => _ end] => destruct x eqn:?
         end.

Ltac frame_branch :=
  cbn [fst snd users logAuditEvent with_users with_otpStore with_resetTokens];
  first [ solve [eexists; split; [eassumption | split; reflexivity]]
        | solve [apply keep_updateOne; auto] ].

Lemma verify_email_keepsCounter : keepsCounter verify_email.
Proof.
  intros env req st e u Hf. unfold verify_email. split_guards; frame_branch.
Qed.

Lemma forgot_password_keepsCounter : keepsCounter forgot_password.
Proof.
  intros env req st e u Hf. unfold forgot_password. split_guards; frame_branch.
Qed.

Lemma reset_password_keepsCounter : keepsCounter reset_password.
Proof.
  intros env req st e u Hf. unfold reset_password, updatePassword.
  split_guards; frame_branch.
Qed.

Lemma change_password_keepsCounter : keepsCounter change_password.
Proof.
  intros env req st e u Hf. unfold change_password, updatePassword.
  split_guards; frame_branch.
Qed.

Lemma register_keepsCounter : keepsCounter register.
Proof.
  intros env req st e u Hf. unfold register. split_guards;
    cbn [fst snd users logAuditEvent with_users with_otpStore];
    try solve [eexists; split; [eassumption | split; reflexivity]].
  - rewrite deleteOne_app_fresh.
    + eexists; split; [eassumption | split; reflexivity].
    + intros d Hd. now apply byId_fresh.
    + unfold byId. cbn [_id]. apply N.eqb_refl.
  - exists u. split; [now apply findOne_app_l | split; reflexivity].
Qed.

(** C10. The counter is not reset when a lock window expires: a stored,
    verified user whose counter has reached 5 and whose previous lock (if
    any) has passed is locked again by a single further wrong password,
    until now + 15 minutes of that call, with the counter one higher; and
    no login lowers a stored user's counter unless it succeeds, in which
    case the counter of the account logged into is zero and its lock is
    cleared.  The other handlers of the router never touch the counter
    or the lock of a stored user. *)
Theorem C10_relock_on_each_failure :
  (forall env req st u,
      errors req = [] -> captcha_isValid env = true ->
      findOne (byEmail (body_email req)) (users st) = Some u ->
      isVerified u = true -> 5 <= attemptsOf u ->
      (forall l, lockUntil u = Some l -> l <= now env) ->
      comparePassword (body_password req) (password u) = false ->
      snd (login env req st) = InvalidCredentialsError
      /\ exists u',
           findOne (byEmail (body_email req)) (users (fst (login env req st))) = Some u'
           /\ attemptsOf u' = attemptsOf u + 1
           /\ lockUntil u' = Some (later env + 15 * 60 * 1000))
  /\ (forall env req st e u,
      findOne (byEmail e) (users st) = Some u ->
      exists u',
        findOne (byEmail e) (users (fst (login env req st))) = Some u'
        /\ (success (snd (login env req st)) = false -> attemptsOf u <= attemptsOf u')
        /\ (success (snd (login env req st)) = true -> body_email req = e ->
            loginAttempts u' = Some 0 /\ lockUntil u' = None))
  /\ (keepsCounter register /\ keepsCounter verify_email
      /\ keepsCounter forgot_password /\ keepsCounter reset_password
      /\ keepsCounter change_password).
Proof.
  split; [|split];
    [| | auto using register_keepsCounter, verify_email_keepsCounter,
           forgot_password_keepsCounter, reset_password_keepsCounter,
           change_password_keepsCounter].
  - intros env req st u He Hc Hf Hv H5 Hl Hp. apply isLocked_expired in Hl.
    destruct (login_mismatch env req st u He Hc Hf Hl Hv Hp) as [Hr Hf'].
    split; [exact Hr|]. eexists. split; [exact Hf'|].
    rewrite attemptsOf_setLoginFailure. split; [reflexivity|]. cbn [lockUntil setLoginFailure].
    destruct (N.leb_spec 5 (attemptsOf u + 1)); [reflexivity | lia].
  - intros. now apply login_counter.
Qed.

End LockoutClaims.

(** ** Email verification *)

Section VerifyProofs.
Import Security Store Auth Props.
Context `{Bcrypt}.

Lemma code_cases st env req : codeMatches st env req \/ codeInvalid st env req.
Proof.
  unfold codeMatches, codeInvalid.
  destruct (otpStore st !! body_email req) as [entry|] eqn:Hs; [|auto].
  destruct (String.eqb_spec (otp entry) (body_otp req)) as [Heq|Hne].
  - destruct (N.ltb_spec (expiry entry) (now env)).
    + right. right. exists entry. auto.
    + left. exists entry. auto.
  - right. right. exists entry. auto.
Qed.

Lemma verify_email_invalid env req st u :
  errors req = [] ->
  findOne (byEmail (body_email req)) (users st) = Some u ->
  isVerified u = false ->
  codeInvalid st env req ->
  verify_email env req st = (st, InvalidCodeError).
Proof.
  intros He Hf Hv Hinv. unfold verify_email. apply errors_guard in He.
  rewrite He, Hf, Hv. destruct Hinv as [Hnone | (entry & Hs & Hbad)].
  - now rewrite Hnone.
  - rewrite Hs. destruct Hbad as [Hne | Hexp].
    + apply String.eqb_neq in Hne. now rewrite Hne.
    + apply N.ltb_lt in Hexp. rewrite Hexp. now rewrite orb_true_r.
Qed.

Lemma verify_email_ok env req st u :
  errors req = [] ->
  findOne (byEmail (body_email req)) (users st) = Some u ->
  isVerified u = false ->
  codeMatches st env req ->
  success (snd (verify_email env req st)) = true
  /\ findOne (byEmail (body_email req)) (users (fst (verify_email env req st)))
     = Some (setVerified (now env) u)
  /\ otpStore (fst (verify_email env req st)) !! body_email req = None.
Proof.
  intros He Hf Hv (entry & Hs & Hotp & Hexp). unfold verify_email.
  apply errors_guard in He. rewrite He, Hf, Hv, Hs.
  apply String.eqb_eq in Hotp. apply N.ltb_ge in Hexp. rewrite Hotp, Hexp.
  cbn [negb orb fst snd users otpStore logAuditEvent with_users with_otpStore success accept].
  split; [reflexivity|]. split.
  - apply findOne_updateOne_hit; [exact Hf|].
    change (byEmail (body_email req) u = true). eapply findOne_byEmail_holds; eauto.
  - apply lookup_delete_eq.
Qed.

(** C6. For an unverified user and a well-formed request: a code that
    is absent from the one-time-code store, differs from the stored one
    or is past its expiry is refused with the invalid-code error and the
    whole state (verification flag, stored code) stays as it was; a
    matching, unexpired code makes the record verified and consumes the
    stored code; and the record is verified after the call only in that
    second case. *)
Theorem C6_verify_email_code env req st u :
  errors req = [] ->
  findOne (byEmail (body_email req)) (users st) = Some u ->
  isVerified u = false ->
  (codeInvalid st env req -> verify_email env req st = (st, InvalidCodeError))
  /\ (codeMatches st env req ->
      success (snd (verify_email env req st)) = true
      /\ (exists u', findOne (byEmail (body_email req))
                       (users (fst (verify_email env req st))) = Some u'
                     /\ isVerified u' = true)
      /\ otpStore (fst (verify_email env req st)) !! body_email req = None)
  /\ (forall u', findOne (byEmail (body_email req))
                   (users (fst (verify_email env req st))) = Some u' ->
                 isVerified u' = true -> codeMatches st env req).
Proof.
  intros He Hf Hv. split; [|split].
  - now apply (verify_email_invalid env req st u).
  - intros Hm. destruct (verify_email_ok env req st u He Hf Hv Hm) as (Hs & Hu & Ho).
    split; [exact Hs|]. split; [|exact Ho]. eexists. split; [exact Hu | reflexivity].
  - intros u' Hf' Hv'. destruct (code_cases st env req) as [Hm | Hinv]; [exact Hm|].
    rewrite (verify_email_invalid env req st u He Hf Hv Hinv) in Hf'. cbn [fst] in Hf'.
    rewrite Hf in Hf'. injection Hf' as <-. congruence.
Qed.

End VerifyProofs.

(** ** Forgot-password *)

Section ForgotProofs.
Import Security Store Auth Props.
Context `{Bcrypt}.

(** C3, evaluated on the code.  For a well-formed request the answer to
    an unregistered email is the generic success envelope, while the
    answer to a registered email carries another message (and, when the
    mail cannot be delivered, another success flag): the two envelopes
    are never the same. *)
Theorem C3_forgot_password_envelopes_differ env1 env2 req1 req2 st u :
  errors req1 = [] -> errors req2 = [] ->
  findOne (byEmail (body_email req1)) (users st) = Some u ->
  findOne (byEmail (body_email req2)) (users st) = None ->
  snd (forgot_password env2 req2 st)
    = accept 200 "If an account with this email exists, a password reset link has been sent"
             NoPayload
  /\ snd (forgot_password env1 req1 st)
     = (if mail_success env1
        then accept 200 "Password reset link sent to your email" NoPayload
        else reject 500 "Failed to send password reset email")
  /\ message (snd (forgot_password env1 req1 st))
     <> message (snd (forgot_password env2 req2 st)).
Proof.
  intros He1 He2 Hf1 Hf2. unfold forgot_password.
  apply errors_guard in He1, He2. rewrite He1, He2, Hf1, Hf2.
  destruct (mail_success env1); cbn [snd]; repeat split; discriminate.
Qed.

End ForgotProofs.

(** ** Password history *)

Section HistoryProofs.
Import Security Store Auth Props.
Context `{Bcrypt}.

Lemma inHistory_spec pw hist :
  inHistory pw hist = true
  <-> exists h, In h hist /\ comparePassword pw (hi_password h) = true.
Proof. unfold inHistory. apply existsb_exists. Qed.

Lemma newPasswordHistory_length h t hist :
  (List.length (newPasswordHistory h t hist) <= 5)%nat.
Proof.
  unfold newPasswordHistory, PREVIOUS_PASSWORDS_COUNT. cbn [List.length Nat.sub].
  pose proof (firstn_le_length 4 hist). lia.
Qed.

Lemma firstn_In {A} n (l : list A) x : In x (firstn n l) -> In x l.
Proof.
  revert n. induction l as [|a l IH]; intros [|n]; cbn; try tauto.
  intros [->|Hx]; [auto | right; eauto].
Qed.

Lemma firstn_StronglySorted {A} (R : A -> A -> Prop) n (l : list A) :
  StronglySorted R l -> StronglySorted R (firstn n l).
Proof.
  intros Hs. revert n. induction Hs as [|a l Hs IH Ha]; intros [|n]; cbn; try constructor.
  - apply IH.
  - apply List.Forall_forall. intros x Hx. rewrite List.Forall_forall in Ha.
    apply Ha. eapply firstn_In; eauto.
Qed.

Lemma newPasswordHistory_sorted h t hist :
  mostRecentFirst hist ->
  (forall x, In x hist -> hi_createdAt x <= t) ->
  mostRecentFirst (newPasswordHistory h t hist).
Proof.
  intros Hs Ht. unfold mostRecentFirst, newPasswordHistory. constructor.
  - now apply firstn_StronglySorted.
  - apply List.Forall_forall. intros x Hx. cbn [hi_createdAt]. apply Ht.
    eapply firstn_In; eauto.
Qed.

Lemma findOne_byId_holds i c u : findOne (byId i) c = Some u -> _id u = i.
Proof. intros Hf. apply find_some in Hf as [_ Hq]. now apply N.eqb_eq in Hq. Qed.

(** The tail that both routes would run on the user they look for:
    a password found in the history stops the update. *)
Lemma updatePassword_in_history env t req u st :
  inHistory (body_password req) (historyOf u) = true ->
  updatePassword env t req u st = None.
Proof. intros Hh. unfold updatePassword. now rewrite Hh. Qed.

(** Otherwise the document of [u] gets the new hash and history. *)
Lemma updatePassword_fresh env t req u st i :
  findOne (byId i) (users st) = Some u ->
  inHistory (body_password req) (historyOf u) = false ->
  exists st',
    updatePassword env t req u st = Some st'
    /\ otpStore st' = otpStore st
    /\ passwordResetTokens st' = passwordResetTokens st
    /\ findOne (byId i) (users st')
       = Some (setPassword (hashPassword (body_password req) (salt env))
                 (newPasswordHistory (hashPassword (body_password req) (salt env)) t
                    (historyOf u)) t u).
Proof.
  intros Hf Hh. unfold updatePassword. rewrite Hh. eexists. split; [reflexivity|].
  cbn [users otpStore passwordResetTokens with_users]. repeat split.
  pose proof (findOne_byId_holds i _ u Hf) as Hid. rewrite Hid.
  apply findOne_updateOne_hit; [exact Hf|].
  unfold byId. cbn [_id setPassword]. now apply N.eqb_eq.
Qed.

(** A query for a string [_id] finds nothing: every key is an ObjectId. *)
Lemma findOne_byIdString s (c : list User) : findOne (byIdString s) c = None.
Proof. unfold findOne. induction c as [|x c IH]; cbn; auto. Qed.

Lemma updateOne_byIdString s upd (c : list User) : updateOne (byIdString s) upd c = c.
Proof. induction c as [|x c IH]; cbn; [reflexivity | now f_equal]. Qed.

(** Past validation, strength check and token check, reset-password
    looks for the user and does not find it. *)
Lemma reset_password_not_found env req st rd :
  errors req = [] ->
  isValid (checkPasswordStrength (body_password req)) = true ->
  passwordResetTokens st !! body_token req = Some rd ->
  now env <= rd_expiry rd ->
  reset_password env req st = (st, NotFoundError).
Proof.
  intros He Hv Ht Hexp. unfold reset_password. apply errors_guard in He.
  rewrite He, Hv, Ht. apply N.ltb_ge in Hexp. rewrite Hexp.
  cbn [negb]. now rewrite findOne_byIdString.
Qed.

Lemma change_password_not_found env req st caller :
  errors req = [] ->
  isValid (checkPasswordStrength (body_password req)) = true ->
  req_user req = Some caller ->
  change_password env req st = (st, NotFoundError).
Proof.
  intros He Hv Hc. unfold change_password. apply errors_guard in He.
  rewrite He, Hc, Hv. cbn [negb]. now rewrite findOne_byIdString.
Qed.

(** Every answer of reset-password is one of the refusals that precede
    the history check. *)
Lemma reset_password_answers env req st :
  fst (reset_password env req st) = st
  /\ (snd (reset_password env req st) = validationFailed (errors req)
      \/ snd (reset_password env req st)
         = weakPassword (checkPasswordStrength (body_password req))
      \/ snd (reset_password env req st) = InvalidTokenError
      \/ snd (reset_password env req st) = NotFoundError).
Proof.
  unfold reset_password.
  destruct (negb (bool_decide _)); [cbn; auto|].
  destruct (negb (isValid _)); [cbn; auto|].
  destruct (passwordResetTokens st !! body_token req) as [rd|]; [|cbn; auto].
  destruct (rd_expiry rd <? now env); [cbn; auto|].
  rewrite findOne_byIdString. cbn; auto 6.
Qed.

Lemma change_password_answers env req st :
  fst (change_password env req st) = st
  /\ (snd (change_password env req st) = validationFailed (errors req)
      \/ snd (change_password env req st) = reject 500 "Password change failed"
      \/ snd (change_password env req st)
         = weakPassword (checkPasswordStrength (body_password req))
      \/ snd (change_password env req st) = NotFoundError).
Proof.
  unfold change_password.
  destruct (negb (bool_decide _)); [cbn; auto|].
  destruct (req_user req) as [caller|]; [|cbn; auto].
  destruct (negb (isValid _)); [cbn; auto|].
  rewrite findOne_byIdString. cbn; auto 6.
Qed.

Lemma reset_password_refused env req st :
  rejected success st (reset_password env req st).
Proof.
  destruct (reset_password_answers env req st) as [Hst Hr]. split; [exact Hst|].
  destruct Hr as [-> | [-> | [-> | ->]]]; reflexivity.
Qed.

Lemma change_password_refused env req st :
  rejected success st (change_password env req st).
Proof.
  destruct (change_password_answers env req st) as [Hst Hr]. split; [exact Hst|].
  destruct Hr as [-> | [-> | [-> | ->]]]; reflexivity.
Qed.

Lemma setPassword_updatedRecord env t req u :
  let hashed := hashPassword (body_password req) (salt env) in
  updatedRecord env t req u
    (setPassword hashed (newPasswordHistory hashed t (historyOf u)) t u).
Proof.
  intros hashed. unfold updatedRecord. fold hashed.
  change (historyOf (setPassword hashed (newPasswordHistory hashed t (historyOf u)) t u))
    with (newPasswordHistory hashed t (historyOf u)).
  repeat split.
  - apply newPasswordHistory_length.
  - apply newPasswordHistory_sorted.
Qed.

(** C5, evaluated on the code.  The history check and the history
    update of reset-password and change-password are never reached: the
    user is looked up by a string id, which matches no document key, so
    a request that passes validation, the strength check and (for a
    reset) the token check is answered "User not found", whether its
    password is one of the history or a new one; a change request
    without [req.user] is answered with status 500.  Neither route ever
    succeeds, answers with the history error, or changes the state. *)
Theorem C5_history_check_unreachable :
  (forall env req st rd,
      errors req = [] ->
      isValid (checkPasswordStrength (body_password req)) = true ->
      passwordResetTokens st !! body_token req = Some rd ->
      now env <= rd_expiry rd ->
      reset_password env req st = (st, NotFoundError))
  /\ (forall env req st caller,
      errors req = [] ->
      isValid (checkPasswordStrength (body_password req)) = true ->
      req_user req = Some caller ->
      change_password env req st = (st, NotFoundError))
  /\ (forall env req st,
      errors req = [] -> req_user req = None ->
      change_password env req st = (st, reject 500 "Password change failed"))
  /\ (forall env req st,
      rejected success st (reset_password env req st)
      /\ snd (reset_password env req st) <> HistoryError
      /\ rejected success st (change_password env req st)
      /\ snd (change_password env req st) <> HistoryError).
Proof.
  split; [|split; [|split]].
  - intros. eapply reset_password_not_found; eauto.
  - intros. eapply change_password_not_found; eauto.
  - intros env req st He Hu. unfold change_password. apply errors_guard in He.
    now rewrite He, Hu.
  - intros env req st.
    destruct (reset_password_answers env req st) as [_ Hr].
    destruct (change_password_answers env req st) as [_ Hc].
    split; [apply reset_password_refused|]. split.
    { destruct Hr as [-> | [-> | [-> | ->]]]; discriminate. }
    split; [apply change_password_refused|].
    destruct Hc as [-> | [-> | [-> | ->]]]; discriminate.
Qed.

End HistoryProofs.

(** ** Multi-factor authentication *)

Section MfaProofs.
Import Security Store Mfa.

Lemma toUpperCase_idempotent s : JS.toUpperCase (JS.toUpperCase s) = JS.toUpperCase s.
Proof.
  induction s as [|c s IH]; cbn [JS.toUpperCase]; [reflexivity|]. f_equal; [|exact IH].
  unfold JS.upperChar at 1. destruct (JS.hasUpperForm (JS.upperChar c)) eqn:Hl; [|reflexivity].
  exfalso. revert Hl. unfold JS.upperChar, JS.hasUpperForm, JS.isLower, JS.code.
  destruct c as [[] [] [] [] [] [] [] []]; vm_compute; discriminate.
Qed.

(** Every generated backup code is in upper case already. *)
Lemma generateBackupCodes_normalized rnd c :
  In c (generateBackupCodes rnd) -> JS.toUpperCase c = c.
Proof.
  unfold generateBackupCodes. intros Hc. apply in_map_iff in Hc as (i & <- & _).
  apply toUpperCase_idempotent.
Qed.

Lemma includes_spec arr x : JS.includes arr x = true <-> In x arr.
Proof.
  unfold JS.includes. rewrite existsb_exists. split.
  - intros (y & Hy & He). apply String.eqb_eq in He. now subst.
  - intros Hx. exists x. split; [exact Hx | apply String.eqb_refl].
Qed.

Lemma filter_removes (x : string) (codes : list string) :
  let rest := List.filter (fun code => negb (String.eqb code x)) codes in
  ~ In x rest /\ (forall d, In d rest <-> In d codes /\ d <> x).
Proof.
  intros rest. subst rest. split.
  - intros Hx. apply filter_In in Hx as [_ Hx]. now rewrite String.eqb_refl in Hx.
  - intros d. rewrite filter_In, negb_true_iff, String.eqb_neq. tauto.
Qed.

Lemma findOne_byEmail_holds_mfa e c u :
  findOne (byEmail e) c = Some u -> In u c /\ byEmail e u = true.
Proof. intros Hf. now apply find_some in Hf. Qed.

(** With unique ids, updating by the id of the document that an email
    lookup found rewrites that very document. *)
Lemma updateOne_byId_of_found e upd (c : list User) u :
  NoDup (List.map _id c) ->
  findOne (byEmail e) c = Some u ->
  updateOne (byId (_id u)) upd c = updateOne (byEmail e) upd c.
Proof.
  unfold findOne. induction c as [|x c IH]; cbn [List.map find updateOne]; [discriminate|].
  intros Hnd Hf. apply NoDup_cons in Hnd as [Hx Hnd].
  destruct (byEmail e x) eqn:Hq.
  - injection Hf as ->. unfold byId. now rewrite N.eqb_refl.
  - destruct (byId (_id u) x) eqn:Hi.
    + exfalso. apply Hx. apply N.eqb_eq in Hi. rewrite Hi.
      apply list_elem_of_In, in_map. now apply find_some in Hf.
    + f_equal. now apply IH.
Qed.

End MfaProofs.

Section MfaClaims.
Import Security Store Mfa.

(** C9. For an MFA-enabled user and a code [c] of the stored set, a
    submission whose upper-cased form is [c] (the code in any letter
    case) succeeds once and leaves the stored set without [c] and
    otherwise as it was; submitting it again is answered with the
    invalid-backup-code error.  Matching and removal both go through the
    upper-cased submission. *)
Theorem C9_backup_code_single_use env1 env2 req st u codes c :
  errors req = [] ->
  NoDup (List.map _id (users st)) ->
  findOne (byEmail (body_email req)) (users st) = Some u ->
  mfaEnabled u = true ->
  mfaBackupCodes u = Some codes ->
  In c codes ->
  JS.toUpperCase (body_backupCode req) = c ->
  let out1 := verify_backup env1 req st in
  snd out1 = accept "Backup code verification successful" NoPayload
  /\ (exists u1 rest,
        findOne (byEmail (body_email req)) (users (fst out1)) = Some u1
        /\ mfaEnabled u1 = true
        /\ mfaBackupCodes u1 = Some rest
        /\ ~ In c rest
        /\ (forall d, In d rest <-> In d codes /\ d <> c))
  /\ snd (verify_backup env2 req (fst out1)) = InvalidBackupCode.
Proof.
  intros He Hnd Hf Hen Hcodes Hin Hup out1.
  assert (Hg : negb (bool_decide (errors req = [])) = false) by now apply errors_guard.
  destruct (filter_removes c codes) as [Hnot Hrest].
  set (rest := List.filter (fun code => negb (String.eqb code c)) codes) in *.
  assert (Hout : out1
                 = (logAuditEvent (toString (_id u)) "MFA_BACKUP_VERIFICATION_SUCCESS" (body_email req)
                      (with_users st
                         (updateOne (byEmail (body_email req))
                            (setBackupCodes rest (now env1)) (users st))),
                    accept "Backup code verification successful" NoPayload)).
  { subst out1. unfold verify_backup. rewrite Hg, Hf, Hcodes, Hen. cbn [negb].
    unfold verifyBackupCode. rewrite Hup.
    rewrite (proj2 (includes_spec codes c) Hin). cbn [negb]. fold rest.
    now rewrite (updateOne_byId_of_found (body_email req) _ (users st) u Hnd Hf). }
  assert (Hf1 : findOne (byEmail (body_email req)) (users (fst out1))
                = Some (setBackupCodes rest (now env1) u)).
  { rewrite Hout. cbn [fst users logAuditEvent with_users].
    apply findOne_updateOne_hit; [exact Hf|].
    change (byEmail (body_email req) u = true).
    now apply findOne_byEmail_holds_mfa in Hf. }
  split; [now rewrite Hout|]. split.
  - exists (setBackupCodes rest (now env1) u), rest.
    split; [exact Hf1|]. split; [exact Hen|]. split; [reflexivity|].
    split; [exact Hnot | exact Hrest].
  - unfold verify_backup. rewrite Hg, Hf1. cbn [mfaBackupCodes mfaEnabled setBackupCodes].
    rewrite Hen. cbn [negb]. unfold verifyBackupCode. rewrite Hup.
    destruct (JS.includes rest c) eqn:Hinc; [|reflexivity].
    apply includes_spec in Hinc. contradiction.
Qed.

Context `{Totp}.

(** A query for a string [_id] finds nothing: every key is an ObjectId. *)
Lemma findOne_byIdString_mfa s (c : list User) : findOne (byIdString s) c = None.
Proof. unfold findOne. induction c as [|x c IH]; cbn; auto. Qed.


End MfaClaims.

(** ** Worked scenarios *)

Section Scenarios.
Import Security Store Auth Props Sample.

Example strength_examples :
  isValid (checkPasswordStrength "Test@123") = true
  /\ isValid (checkPasswordStrength "StrongPass123!") = true
  /\ score (checkPasswordStrength "Weak123") = 3
  /\ strength (checkPasswordStrength "weak") = weak
  /\ isValid (checkPasswordStrength "Pass@word") = false.
Proof. repeat split; reflexivity. Qed.

Lemma C2_witness :
  score (checkPasswordStrength "Weak123") < 5
  /\ rejected success st0 (@register toyBcrypt (envAt 100 true) (request "c@x.com" "Weak123") st0)
  /\ rejected success stReset
       (@reset_password toyBcrypt (envAt 100 true) (request "a@x.com" "Weak123") stReset)
  /\ rejected success st0
       (@change_password toyBcrypt (envAt 100 true) (request "a@x.com" "Weak123") st0).
Proof.
  assert (Hlt : score (checkPasswordStrength "Weak123") < 5) by reflexivity.
  split; [exact Hlt|].
  split; [|split];
    apply (proj2 (proj2 (proj2 (@C2_strength_score_and_gate toyBcrypt "Weak123"))) Hlt);
    reflexivity.
Defined.

Lemma C4_witness :
  snd (@register toyBcrypt (envAt 100 false) (request "c@x.com" "Str0ng!Pw") st0)
    = DeliveryError
  /\ users (fst (@register toyBcrypt (envAt 100 false) (request "c@x.com" "Str0ng!Pw") st0))
     = users st0
  /\ findOne (byEmail "c@x.com")
       (users (fst (@register toyBcrypt (envAt 100 false)
                      (request "c@x.com" "Str0ng!Pw") st0))) = None.
Proof.
  apply (@C4_register_rollback toyBcrypt (envAt 100 false) (request "c@x.com" "Str0ng!Pw") st0);
    reflexivity.
Defined.

Lemma C1_witness :
  (exists u5,
      findOne (byEmail "a@x.com") (users stLocked) = Some u5
      /\ lockUntil u5 = Some (later (envAt 500 true) + 15 * 60 * 1000))
  /\ @login toyBcrypt (envAt 600 true) (request "a@x.com" "Str0ng!Pw") stLocked
     = (stLocked, AccountLockedError)
  /\ (success (snd (@login toyBcrypt (envAt 900501 true)
                      (request "a@x.com" "Str0ng!Pw") stLocked)) = true
      /\ exists u',
           findOne (byEmail "a@x.com")
             (users (fst (@login toyBcrypt (envAt 900501 true)
                            (request "a@x.com" "Str0ng!Pw") stLocked))) = Some u'
           /\ loginAttempts u' = Some 0 /\ lockUntil u' = None)
  /\ @login toyBcrypt (envAt 100 true) (request "a@x.com" "wrong") stUnverified
     = (stUnverified, UnverifiedError).
Proof.
  destruct (@C1_lockout_cycle toyBcrypt) as (Ha & Hb & Hc & Hd). split; [|split; [|split]].
  - apply (Ha st0 "a@x.com" ann fourWrong (envAt 500 true) (request "a@x.com" "wrong")).
    + reflexivity.
    + reflexivity.
    + repeat constructor.
    + vm_compute. repeat constructor.
  - apply (Hb (envAt 600 true) (request "a@x.com" "Str0ng!Pw") stLocked
              (setLoginFailure 5 (Some 900501) ann) 900501); reflexivity.
  - apply (Hc (envAt 900501 true) (request "a@x.com" "Str0ng!Pw") stLocked
              (setLoginFailure 5 (Some 900501) ann)); try reflexivity.
    intros l Hl. injection Hl as <-. vm_compute. discriminate.
  - apply (Hd (envAt 100 true) (request "a@x.com" "wrong") stUnverified annUnverified);
      try reflexivity.
    intros l Hl. discriminate Hl.
Defined.

(** C1 as stated fails for an unverified user: five consecutive failed
    logins with a wrong password are each answered "Please verify your
    email before logging in"; the state is as before, the counter is
    still zero and no lockout is set. *)
Lemma C1_counterexample :
  snd (@logins toyBcrypt (fourWrong ++ [fifthWrong]) stUnverified)
    = [UnverifiedError; UnverifiedError; UnverifiedError; UnverifiedError; UnverifiedError]
  /\ Forall (fun r => success r = false)
            (snd (@logins toyBcrypt (fourWrong ++ [fifthWrong]) stUnverified))
  /\ fst (@logins toyBcrypt (fourWrong ++ [fifthWrong]) stUnverified) = stUnverified
  /\ (lockUntil <$> findOne (byEmail "a@x.com")
                      (users (fst (@logins toyBcrypt (fourWrong ++ [fifthWrong])
                                     stUnverified)))) = Some None
  /\ (loginAttempts <$> findOne (byEmail "a@x.com")
                          (users (fst (@logins toyBcrypt (fourWrong ++ [fifthWrong])
                                         stUnverified)))) = Some (Some 0).
Proof.
  split; [reflexivity|]. split; [repeat constructor|]. repeat split; reflexivity.
Qed.

(** C7 as stated fails: the fifth wrong password against the verified,
    unlocked account of the scenario is answered with status 401
    "Invalid credentials", not with the account-locked envelope. *)
Lemma C7_counterexample :
  snd (@logins toyBcrypt (fourWrong ++ [fifthWrong]) st0)
    = [InvalidCredentialsError; InvalidCredentialsError; InvalidCredentialsError;
       InvalidCredentialsError; InvalidCredentialsError]
  /\ nth 4 (snd (@logins toyBcrypt (fourWrong ++ [fifthWrong]) st0)) AccountLockedError
     <> AccountLockedError.
Proof. split; [reflexivity | vm_compute; discriminate]. Qed.

Lemma C7_witness :
  let out := @logins toyBcrypt (fourWrong ++ [fifthWrong]) st0 in
  Forall (eq InvalidCredentialsError) (snd out)
  /\ (exists u5, findOne (byEmail "a@x.com") (users (fst out)) = Some u5
                 /\ attemptsOf u5 = 5
                 /\ lockUntil u5 = Some (later (envAt 500 true) + 15 * 60 * 1000))
  /\ (forall env6 req6,
        errors req6 = [] -> captcha_isValid env6 = true -> body_email req6 = "a@x.com" ->
        now env6 < later (envAt 500 true) + 15 * 60 * 1000 ->
        @login toyBcrypt env6 req6 (fst out) = (fst out, AccountLockedError)).
Proof.
  apply (@C7_fifth_failure_is_invalid_credentials toyBcrypt st0 "a@x.com" ann fourWrong
           (envAt 500 true) (request "a@x.com" "wrong")); try reflexivity.
  repeat (constructor; [repeat split; reflexivity|]). constructor.
Defined.

Lemma C10_witness :
  (snd (@login toyBcrypt (envAt 900600 true) (request "a@x.com" "wrong") stLocked)
     = InvalidCredentialsError
   /\ exists u',
        findOne (byEmail "a@x.com")
          (users (fst (@login toyBcrypt (envAt 900600 true)
                         (request "a@x.com" "wrong") stLocked))) = Some u'
        /\ attemptsOf u' = 5 + 1
        /\ lockUntil u' = Some (later (envAt 900600 true) + 15 * 60 * 1000))
  /\ (exists u',
        findOne (byEmail "a@x.com")
          (users (fst (@login toyBcrypt (envAt 600 true)
                         (request "a@x.com" "Str0ng!Pw") stLocked))) = Some u'
        /\ (success (snd (@login toyBcrypt (envAt 600 true)
                            (request "a@x.com" "Str0ng!Pw") stLocked)) = false ->
            5 <= attemptsOf u')
        /\ (success (snd (@login toyBcrypt (envAt 600 true)
                            (request "a@x.com" "Str0ng!Pw") stLocked)) = true ->
            "a@x.com" = "a@x.com" ->
            loginAttempts u' = Some 0 /\ lockUntil u' = None)).
Proof.
  destruct (@C10_relock_on_each_failure toyBcrypt) as (Ha & Hb & _). split.
  - apply (Ha (envAt 900600 true) (request "a@x.com" "wrong") stLocked
              (setLoginFailure 5 (Some 900501) ann)); try reflexivity.
    intros l Hl. injection Hl as <-. vm_compute. discriminate.
  - apply (Hb (envAt 600 true) (request "a@x.com" "Str0ng!Pw") stLocked "a@x.com"
              (setLoginFailure 5 (Some 900501) ann)). reflexivity.
Defined.

Lemma C6_witness :
  verify_email (envAt 100 true) (withOtp "000000" (request "a@x.com" ""))
                stUnverified
    = (stUnverified, InvalidCodeError)
  /\ (success (snd (verify_email (envAt 100 true) (request "a@x.com" "")
                      stUnverified)) = true
      /\ (exists u',
            findOne (byEmail "a@x.com")
              (users (fst (verify_email (envAt 100 true) (request "a@x.com" "")
                             stUnverified))) = Some u'
            /\ isVerified u' = true)
      /\ otpStore (fst (verify_email (envAt 100 true) (request "a@x.com" "")
                          stUnverified)) !! "a@x.com" = None).
Proof.
  split.
  - apply (proj1 (C6_verify_email_code (envAt 100 true)
                    (withOtp "000000" (request "a@x.com" "")) stUnverified annUnverified
                    eq_refl eq_refl eq_refl)).
    right. eexists. split; [reflexivity|]. left. discriminate.
  - apply (proj1 (proj2 (C6_verify_email_code (envAt 100 true)
                           (request "a@x.com" "") stUnverified annUnverified
                           eq_refl eq_refl eq_refl))).
    eexists. split; [reflexivity|]. split; [reflexivity | vm_compute; discriminate].
Defined.

Lemma C5_witness :
  @reset_password toyBcrypt (envAt 200 true) (request "a@x.com" "N3w!Passw") stReset
    = (stReset, NotFoundError)
  /\ @reset_password toyBcrypt (envAt 200 true) (request "a@x.com" "Str0ng!Pw") stReset
     = (stReset, NotFoundError)
  /\ @change_password toyBcrypt (envAt 200 true) (request "a@x.com" "N3w!Passw") st0
     = (st0, NotFoundError)
  /\ @change_password toyBcrypt (envAt 200 true) (withoutUser (request "a@x.com" "N3w!Passw"))
        st0
     = (st0, reject 500 "Password change failed").
Proof.
  destruct (@C5_history_check_unreachable toyBcrypt) as (Ha & Hb & Hc & _).
  split; [|split; [|split]]; [| | |apply Hc; reflexivity].
  - apply (Ha (envAt 200 true) (request "a@x.com" "N3w!Passw") stReset
              {| rd_userId := toString 1; rd_email := "a@x.com"; rd_expiry := 5000 |});
      first [reflexivity | vm_compute; discriminate].
  - apply (Ha (envAt 200 true) (request "a@x.com" "Str0ng!Pw") stReset
              {| rd_userId := toString 1; rd_email := "a@x.com"; rd_expiry := 5000 |});
      first [reflexivity | vm_compute; discriminate].
  - apply (Hb (envAt 200 true) (request "a@x.com" "N3w!Passw") st0
              {| userId := toString 1; au_email := "a@x.com" |}); reflexivity.
Defined.

(** The end-to-end scenario: a registration, a wrong code, the right
    code, a login, then five wrong passwords. *)
Example end_to_end :
  let reg := @register toyBcrypt (envAt 10 true) (request "a@x.com" "Str0ng!Pw") stEmpty in
  let bad := verify_email (envAt 20 true) (withOtp "000000" (request "a@x.com" ""))
                          (fst reg) in
  let good := verify_email (envAt 30 true) (request "a@x.com" "") (fst bad) in
  let ok := @login toyBcrypt (envAt 40 true) (request "a@x.com" "Str0ng!Pw") (fst good) in
  let run := @logins toyBcrypt (fourWrong ++ [fifthWrong]) (fst ok) in
  status (snd reg) = 201
  /\ isVerified <$> findOne (byEmail "a@x.com") (users (fst reg)) = Some false
  /\ snd bad = InvalidCodeError
  /\ success (snd good) = true
  /\ success (snd ok) = true
  /\ List.map status (snd run) = [401; 401; 401; 401; 401]
  /\ lockUntil <$> findOne (byEmail "a@x.com") (users (fst run)) = Some (Some 900501).
Proof. vm_compute. repeat split; reflexivity. Qed.

Lemma C3_witness :
  snd (forgot_password (envAt 100 true) (request "nobody@x.com" "") st0)
    = accept 200 "If an account with this email exists, a password reset link has been sent"
             NoPayload
  /\ snd (forgot_password (envAt 100 true) (request "a@x.com" "") st0)
     = accept 200 "Password reset link sent to your email" NoPayload
  /\ message (snd (forgot_password (envAt 100 true) (request "a@x.com" "") st0))
     <> message (snd (forgot_password (envAt 100 true)
                        (request "nobody@x.com" "") st0)).
Proof.
  apply (C3_forgot_password_envelopes_differ (envAt 100 true) (envAt 100 true)
           (request "a@x.com" "") (request "nobody@x.com" "") st0 ann); reflexivity.
Defined.

End Scenarios.

Section MfaScenarios.
Import Security Store Mfa MfaSample.

Example generated_codes :
  firstn 2 (generateBackupCodes randomSample) = ["0AABCDEF"; "0BABCDEF"].
Proof. reflexivity. Qed.

Lemma C9_witness :
  let out1 := verify_backup (envAt 100) (request "" "0aabcdef") stEnabled in
  snd out1 = accept "Backup code verification successful" NoPayload
  /\ (exists u1 rest,
        findOne (byEmail "b@x.com") (users (fst out1)) = Some u1
        /\ mfaEnabled u1 = true
        /\ mfaBackupCodes u1 = Some rest
        /\ ~ In "0AABCDEF" rest
        /\ (forall d, In d rest
                      <-> In d (generateBackupCodes randomSample) /\ d <> "0AABCDEF"))
  /\ snd (verify_backup (envAt 200) (request "" "0aabcdef") (fst out1)) = InvalidBackupCode.
Proof.
  apply (C9_backup_code_single_use (envAt 100) (envAt 200) (request "" "0aabcdef")
           stEnabled bobEnabled (generateBackupCodes randomSample) "0AABCDEF");
    try reflexivity.
  - apply NoDup_singleton.
  - now left.
Defined.


(** The id string that the scenario's request carries. *)
Example request_userId : userId (request "123456" "") = "000000000000000000000007".
Proof. reflexivity. Qed.

End MfaScenarios.


(** * Further properties of the modelled code *)

(** ** More on the document store *)

Section StoreKeys.
Context {Doc : Type}.
Implicit Types (q : Doc -> bool) (upd : Doc -> Doc) (c : list Doc).

Lemma map_updateOne {K} (g : Doc -> K) q upd c :
  (forall x, g (upd x) = g x) ->
  List.map g (Store.updateOne q upd c) = List.map g c.
Proof.
  intros Hg. induction c as [|x c IH]; cbn [Store.updateOne List.map]; [reflexivity|].
  destruct (q x); cbn [List.map]; [now rewrite Hg | now rewrite IH].
Qed.

Lemma Forall_updateOne (P : Doc -> Prop) q upd c :
  (forall x, P x -> P (upd x)) ->
  List.Forall P c -> List.Forall P (Store.updateOne q upd c).
Proof.
  intros Hupd Hc. induction Hc as [|x c Hx Hc IH]; cbn [Store.updateOne]; [constructor|].
  destruct (q x); constructor; auto.
Qed.

(** With unique keys, an update addressed by the key of the document a
    query found rewrites that very document. *)
Lemma updateOne_by_key (id : Doc -> N) q upd c u :
  NoDup (List.map id c) ->
  Store.findOne q c = Some u ->
  Store.updateOne (fun d => id d =? id u) upd c = Store.updateOne q upd c.
Proof.
  unfold Store.findOne.
  induction c as [|x c IH]; cbn [List.map find Store.updateOne]; [discriminate|].
  intros Hnd Hf. apply NoDup_cons in Hnd as [Hx Hnd].
  destruct (q x) eqn:Hq.
  - injection Hf as ->. now rewrite N.eqb_refl.
  - destruct (id x =? id u) eqn:Hi.
    + exfalso. apply Hx. apply N.eqb_eq in Hi. rewrite Hi.
      apply list_elem_of_In, in_map. now apply find_some in Hf.
    + f_equal. now apply IH.
Qed.

(** With unique keys, a lookup by the key of a stored document finds it. *)
Lemma findOne_by_key (id : Doc -> N) c u :
  NoDup (List.map id c) -> In u c ->
  Store.findOne (fun d => id d =? id u) c = Some u.
Proof.
  unfold Store.findOne. induction c as [|x c IH]; cbn [List.map find]; [intros _ []|].
  intros Hnd Hin. apply NoDup_cons in Hnd as [Hx Hnd].
  destruct (id x =? id u) eqn:Hi.
  - destruct Hin as [->|Hin]; [reflexivity|]. exfalso. apply Hx.
    apply N.eqb_eq in Hi. rewrite Hi. now apply list_elem_of_In, in_map.
  - destruct Hin as [->|Hin]; [now rewrite N.eqb_refl in Hi | now apply IH].
Qed.

Lemma findOne_None_key {K} (g : Doc -> K) (eqb : K -> K -> bool) (k : K) c :
  (forall a b, eqb a b = true <-> a = b) ->
  Store.findOne (fun d => eqb (g d) k) c = None -> ~ In k (List.map g c).
Proof.
  intros Heq Hf Hin. apply in_map_iff in Hin as (d & Hd & Hin).
  pose proof (find_none _ _ Hf d Hin) as Hn. cbn in Hn.
  rewrite <- Hd in Hn. rewrite (proj2 (Heq _ _) eq_refl) in Hn. discriminate.
Qed.

End StoreKeys.

(** ** Invariants kept by the authentication routes *)

Section AuthInvariants.
Import Security Store Auth AuthRest Props Invariants.
Context `{Bcrypt}.

Ltac case_guards :=
  repeat match goal with
         | |- context [if ?b then _ else _] => destruct b eqn:?
         | |- context [match ?x with Some _ => _ | None => _ end] => destruct x eqn:?
         end.

Lemma uniqueKeys_updateOne st q upd :
  (forall x, _id (upd x) = _id x) -> (forall x, email (upd x) = email x) ->
  uniqueKeys st -> NoDup (List.map _id (updateOne q upd (users st)))
                   /\ NoDup (List.map email (updateOne q upd (users st))).
Proof.
  intros Hi He [Hid Hem]. now rewrite !map_updateOne.
Qed.

Ltac keys_branch Hk :=
  cbn [fst snd]; unfold uniqueKeys;
  cbn [users logAuditEvent with_users with_otpStore with_resetTokens];
  first [ exact Hk | apply uniqueKeys_updateOne; [reflexivity | reflexivity | exact Hk] ].

Lemma register_uniqueKeys : preserves uniqueKeys register.
Proof.
  intros env req st Hk. unfold register. case_guards; try (keys_branch Hk).
  - unfold uniqueKeys. cbn [fst users with_users with_otpStore].
    rewrite deleteOne_app_fresh; [exact Hk | |].
    + intros d Hd. now apply byId_fresh.
    + unfold byId. cbn [_id]. apply N.eqb_refl.
  - destruct Hk as [Hid Hem]. unfold uniqueKeys.
    cbn [fst users logAuditEvent with_users with_otpStore]. rewrite !map_app. cbn [List.map _id email].
    split; apply NoDup_app; (split; [assumption|]); (split; [|apply NoDup_singleton]);
      intros x Hx Hx'; apply list_elem_of_singleton in Hx'; subst x;
      apply list_elem_of_In in Hx.
    + apply in_map_iff in Hx as (d & Hd & Hin).
      pose proof (freshId_above _id (users st) d Hin). lia.
    + revert Hx. apply (findOne_None_key email String.eqb); [apply String.eqb_eq|].
      assumption.
Qed.

(** The credential routes, the read-only token check, logout and the
    profile update all keep document ids and emails unique. *)
Theorem handlers_keep_unique_keys :
  preserves uniqueKeys register /\ preserves uniqueKeys verify_email
  /\ preserves uniqueKeys login /\ preserves uniqueKeys forgot_password
  /\ preserves uniqueKeys reset_password /\ preserves uniqueKeys change_password
  /\ preserves uniqueKeys validate_reset_token /\ preserves uniqueKeys logout
  /\ preserves uniqueKeys put_profile.
Proof.
  split; [apply register_uniqueKeys|].
  split; [intros env req st Hk; unfold verify_email; case_guards; keys_branch Hk|].
  split; [intros env req st Hk; unfold login; case_guards; keys_branch Hk|].
  split; [intros env req st Hk; unfold forgot_password; case_guards; keys_branch Hk|].
  split; [intros env req st Hk; unfold reset_password, updatePassword;
          case_guards; keys_branch Hk|].
  split; [intros env req st Hk; unfold change_password, updatePassword;
          case_guards; keys_branch Hk|].
  split; [intros env req st Hk; unfold validate_reset_token; case_guards; keys_branch Hk|].
  split; [intros env req st Hk; unfold logout; case_guards; keys_branch Hk|].
  intros env req st Hk; unfold put_profile; case_guards; keys_branch Hk.
Qed.

Lemma historyOk_newPasswordHistory h t hist x :
  historyOk (setPassword h (newPasswordHistory h t hist) t x).
Proof.
  split.
  - apply newPasswordHistory_length.
  - eexists _, _. split; reflexivity.
Qed.

Ltac histories_branch Hh :=
  cbn [fst snd]; unfold historiesOk;
  cbn [users logAuditEvent with_users with_otpStore with_resetTokens];
  first [ exact Hh
        | apply Forall_updateOne; [intros x Hx; first [exact Hx | apply historyOk_newPasswordHistory] | exact Hh] ].

(** Every route keeps, for every stored user, a history of at most five
    entries whose first entry is the current password hash. *)
Theorem handlers_keep_histories :
  preserves historiesOk register /\ preserves historiesOk verify_email
  /\ preserves historiesOk login /\ preserves historiesOk forgot_password
  /\ preserves historiesOk reset_password /\ preserves historiesOk change_password
  /\ preserves historiesOk validate_reset_token /\ preserves historiesOk logout
  /\ preserves historiesOk put_profile.
Proof.
  split.
  { intros env req st Hh. unfold register. case_guards; try (histories_branch Hh).
    + unfold historiesOk. cbn [fst users with_users with_otpStore].
      rewrite deleteOne_app_fresh; [exact Hh | |].
      * intros d Hd. now apply byId_fresh.
      * unfold byId. cbn [_id]. apply N.eqb_refl.
    + unfold historiesOk. cbn [fst users logAuditEvent with_users with_otpStore].
      apply List.Forall_app. split; [exact Hh|]. constructor; [|constructor].
      split; [cbn; lia|]. eexists _, _. split; reflexivity. }
  split; [intros env req st Hh; unfold verify_email; case_guards; histories_branch Hh|].
  split; [intros env req st Hh; unfold login; case_guards; histories_branch Hh|].
  split; [intros env req st Hh; unfold forgot_password; case_guards; histories_branch Hh|].
  split; [intros env req st Hh; unfold reset_password, updatePassword;
          case_guards; histories_branch Hh|].
  split; [intros env req st Hh; unfold change_password, updatePassword;
          case_guards; histories_branch Hh|].
  split; [intros env req st Hh; unfold validate_reset_token; case_guards;
          histories_branch Hh|].
  split; [intros env req st Hh; unfold logout; case_guards; histories_branch Hh|].
  intros env req st Hh; unfold put_profile; case_guards; histories_branch Hh.
Qed.

End AuthInvariants.

(** ** Reset tokens *)

Section ResetTokenProofs.
Import Security Store Auth AuthRest Props Invariants.
Context `{Bcrypt}.

(** The token check is read-only, accepts exactly the stored, unexpired
    tokens, and a token it refuses at some instant cannot be used for a
    reset at that instant. *)
Theorem validate_reset_token_gate env req st :
  errors req = [] ->
  fst (validate_reset_token env req st) = st
  /\ (success (snd (validate_reset_token env req st)) = true
      <-> exists rd, passwordResetTokens st !! body_token req = Some rd
                     /\ now env <= rd_expiry rd)
  /\ (forall req',
        body_token req' = body_token req ->
        success (snd (validate_reset_token env req st)) = false ->
        success (snd (reset_password env req' st)) = false).
Proof.
  intros He. apply errors_guard in He. unfold validate_reset_token. rewrite He.
  destruct (passwordResetTokens st !! body_token req) as [rd|] eqn:Ht.
  - destruct (N.ltb_spec (rd_expiry rd) (now env)) as [Hlt|Hge]; cbn [fst snd success accept TokenInvalid].
    + split; [reflexivity|]. split.
      * split; [discriminate|]. intros (rd' & Hrd & Hle). injection Hrd as <-. lia.
      * intros req' Htok _. unfold reset_password.
        destruct (negb (bool_decide (errors req' = []))); [reflexivity|].
        destruct (negb (isValid _)); [reflexivity|].
        rewrite Htok, Ht. apply N.ltb_lt in Hlt. now rewrite Hlt.
    + split; [reflexivity|]. split; [|discriminate].
      split; [|reflexivity]. intros _. exists rd. split; [reflexivity | exact Hge].
  - cbn [fst snd success TokenInvalid]. split; [reflexivity|]. split.
    + split; [discriminate|]. intros (rd & Hrd & _). discriminate.
    + intros req' Htok _. unfold reset_password.
      destruct (negb (bool_decide (errors req' = []))); [reflexivity|].
      destruct (negb (isValid _)); [reflexivity|].
      now rewrite Htok, Ht.
Qed.

Lemma forgot_password_issued env req st u :
  errors req = [] ->
  findOne (byEmail (body_email req)) (users st) = Some u ->
  users (fst (forgot_password env req st)) = users st
  /\ passwordResetTokens (fst (forgot_password env req st))
     = <[random_resetToken env := {| rd_userId := toString (_id u); rd_email := email u;
                                     rd_expiry := now env + 60 * 60 * 1000 |}]>
         (passwordResetTokens st).
Proof.
  intros He Hf. apply errors_guard in He. unfold forgot_password. rewrite He, Hf.
  destruct (mail_success env); split; reflexivity.
Qed.

(** The recovery path ends at the user lookup.  The token that
    forgot-password stores for a registered user carries the user's id
    as a string; the token check accepts it within the hour, but
    reset-password, given that token and a policy-conforming password,
    is answered with not-found and changes nothing: the token stays
    stored and the password hash is the old one, so a later login to the
    verified, unlocked account succeeds exactly when the submitted
    password matches the old hash. *)
Theorem forgot_reset_not_found env1 req1 env2 req2 env3 req3 st u :
  errors req1 = [] ->
  findOne (byEmail (body_email req1)) (users st) = Some u ->
  errors req2 = [] ->
  body_token req2 = random_resetToken env1 ->
  now env2 <= now env1 + 60 * 60 * 1000 ->
  isValid (checkPasswordStrength (body_password req2)) = true ->
  errors req3 = [] -> captcha_isValid env3 = true ->
  body_email req3 = body_email req1 ->
  isVerified u = true -> isLocked u (now env3) = false ->
  let st1 := fst (forgot_password env1 req1 st) in
  passwordResetTokens st1 !! body_token req2
    = Some {| rd_userId := toString (_id u); rd_email := email u;
              rd_expiry := now env1 + 60 * 60 * 1000 |}
  /\ validate_reset_token env2 req2 st1 = (st1, accept 200 "Reset token is valid" NoPayload)
  /\ reset_password env2 req2 st1 = (st1, NotFoundError)
  /\ findOne (byEmail (body_email req1)) (users st1) = Some u
  /\ success (snd (login env3 req3 (fst (reset_password env2 req2 st1))))
     = comparePassword (body_password req3) (password u).
Proof.
  intros He1 Hf He2 Htok Hexp Hv He3 Hc3 Hm3 Hver Hlk st1.
  destruct (forgot_password_issued env1 req1 st u He1 Hf) as [Hu1 Ht1]. fold st1 in Hu1, Ht1.
  assert (Hstored : passwordResetTokens st1 !! body_token req2
                    = Some {| rd_userId := toString (_id u); rd_email := email u;
                              rd_expiry := now env1 + 60 * 60 * 1000 |})
    by (rewrite Htok, Ht1; apply lookup_insert_eq).
  assert (Hreset : reset_password env2 req2 st1 = (st1, NotFoundError))
    by (eapply reset_password_not_found; eauto).
  assert (Hf1 : findOne (byEmail (body_email req3)) (users st1) = Some u)
    by (now rewrite Hm3, Hu1).
  split; [exact Hstored|]. split; [|split; [exact Hreset|split]].
  - unfold validate_reset_token. pose proof He2 as Hg. apply errors_guard in Hg.
    rewrite Hg, Hstored. cbn [rd_expiry]. apply N.ltb_ge in Hexp. now rewrite Hexp.
  - now rewrite Hu1.
  - rewrite Hreset. cbn [fst].
    destruct (comparePassword (body_password req3) (password u)) eqn:Hp.
    + destruct (login_ok env3 req3 st1 u He3 Hc3 Hf1 Hlk Hver Hp) as [-> _]. reflexivity.
    + destruct (login_mismatch env3 req3 st1 u He3 Hc3 Hf1 Hlk Hver Hp) as [-> _]. reflexivity.
Qed.

(** Resetting or changing the password does not lift a lock: whatever
    the outcome of the reset or change, a login made while lockUntil is
    still in the future is answered with the account-locked error. *)
Theorem password_update_keeps_lock env req st e u l envL reqL :
  findOne (byEmail e) (users st) = Some u ->
  lockUntil u = Some l ->
  errors reqL = [] -> captcha_isValid envL = true -> body_email reqL = e ->
  now envL < l ->
  login envL reqL (fst (reset_password env req st))
    = (fst (reset_password env req st), AccountLockedError)
  /\ login envL reqL (fst (change_password env req st))
     = (fst (change_password env req st), AccountLockedError).
Proof.
  intros Hf Hl He Hc Hm Hlt. subst e. split.
  - destruct (reset_password_keepsCounter env req st _ u Hf) as (u' & Hf' & _ & Hl').
    eapply login_locked; eauto. congruence.
  - destruct (change_password_keepsCounter env req st _ u Hf) as (u' & Hf' & _ & Hl').
    eapply login_locked; eauto. congruence.
Qed.

End ResetTokenProofs.

(** ** Registration, verification and login flows *)

Section AccountFlows.
Import Security Store Auth AuthRest Props Invariants.
Context `{Bcrypt}.

Lemma findOne_app_new {Doc} (q : Doc -> bool) c x :
  findOne q c = None -> q x = true -> findOne q (c ++ [x])%list = Some x.
Proof.
  unfold findOne. induction c as [|y c IH]; cbn [app find]; intros Hn Hx.
  - now rewrite Hx.
  - destruct (q y); [discriminate | auto].
Qed.

(** A verification code verifies once: repeating the successful request
    is answered with the already-verified error and changes nothing. *)
Theorem verify_email_twice env1 env2 req st u :
  errors req = [] ->
  findOne (byEmail (body_email req)) (users st) = Some u ->
  isVerified u = false ->
  codeMatches st env1 req ->
  let st1 := fst (verify_email env1 req st) in
  verify_email env2 req st1 = (st1, AlreadyVerifiedError).
Proof.
  intros He Hf Hv Hm st1.
  destruct (verify_email_ok env1 req st u He Hf Hv Hm) as (_ & Hf1 & _). fold st1 in Hf1.
  unfold verify_email. apply errors_guard in He. now rewrite He, Hf1.
Qed.

(** A registration that goes through stores an unverified record with a
    zero counter, no lock and a one-entry history, and a one-time code
    valid for ten minutes; until the code is confirmed every login is
    answered with the unverified error; confirming the mailed code within
    the ten minutes verifies the record. *)
Theorem register_then_verify env1 req1 st :
  errors req1 = [] -> captcha_isValid env1 = true ->
  isValid (checkPasswordStrength (body_password req1)) = true ->
  findOne (byEmail (body_email req1)) (users st) = None ->
  mail_success env1 = true ->
  let st1 := fst (register env1 req1 st) in
  let hashed := hashPassword (body_password req1) (salt env1) in
  status (snd (register env1 req1 st)) = 201
  /\ (exists u,
        findOne (byEmail (body_email req1)) (users st1) = Some u
        /\ isVerified u = false /\ loginAttempts u = Some 0 /\ lockUntil u = None
        /\ password u = hashed
        /\ historyOf u = [{| hi_password := hashed; hi_createdAt := now env1 |}])
  /\ otpStore st1 !! body_email req1
     = Some {| otp := random_otp env1; expiry := now env1 + 10 * 60 * 1000; attempts := 0 |}
  /\ (forall env2 req2,
        errors req2 = [] -> captcha_isValid env2 = true ->
        body_email req2 = body_email req1 ->
        login env2 req2 st1 = (st1, UnverifiedError))
  /\ (forall env2 req2,
        errors req2 = [] -> body_email req2 = body_email req1 ->
        body_otp req2 = random_otp env1 ->
        now env2 <= now env1 + 10 * 60 * 1000 ->
        success (snd (verify_email env2 req2 st1)) = true
        /\ exists u', findOne (byEmail (body_email req1))
                        (users (fst (verify_email env2 req2 st1))) = Some u'
                      /\ isVerified u' = true).
Proof.
  intros He Hc Hv Hnone Hmail st1 hashed.
  set (u := {| _id := freshId _id (users st);
               email := body_email req1; name := body_name req1; role := body_role req1;
               company := orNull (body_company req1); password := hashed;
               isVerified := false; verificationOTP := Some (random_otp env1);
               otpExpiry := Some (now env1 + OTP_EXPIRES_IN);
               passwordHistory := Some [{| hi_password := hashed; hi_createdAt := now env1 |}];
               loginAttempts := Some 0; lockUntil := None; lastLogin := None;
               createdAt := now env1; updatedAt := now env1; verifiedAt := None |}).
  assert (Hreg : register env1 req1 st
                 = (logAuditEvent (toString (freshId _id (users st))) "USER_REGISTRATION"
                      (body_email req1)
                      (with_users
                         (with_otpStore st
                            (<[body_email req1 := {| otp := random_otp env1;
                                                     expiry := now env1 + OTP_EXPIRES_IN;
                                                     attempts := 0 |}]> (otpStore st)))
                         (users st ++ [u])),
                    accept 201 "Registration successful. Please check your email for verification."
                           (Registered (freshId _id (users st))))).
  { unfold register. apply errors_guard in He. rewrite He, Hc, Hv, Hnone, Hmail. reflexivity. }
  assert (Hf1 : findOne (byEmail (body_email req1)) (users st1) = Some u).
  { subst st1. rewrite Hreg. cbn [fst users logAuditEvent with_users].
    apply findOne_app_new; [exact Hnone|]. unfold byEmail. cbn [email u]. apply String.eqb_refl. }
  assert (Hotp : otpStore st1 !! body_email req1
                 = Some {| otp := random_otp env1; expiry := now env1 + 10 * 60 * 1000;
                           attempts := 0 |}).
  { subst st1. rewrite Hreg. cbn [fst otpStore logAuditEvent with_users with_otpStore].
    apply lookup_insert_eq. }
  split; [now rewrite Hreg|]. split; [|split; [exact Hotp|split]].
  - exists u. repeat split; auto.
  - intros env2 req2 He2 Hc2 Hm2. unfold login. apply errors_guard in He2.
    rewrite He2, Hc2, Hm2, Hf1. reflexivity.
  - intros env2 req2 He2 Hm2 Ho2 Hexp.
    assert (Hmatch : codeMatches st1 env2 req2).
    { eexists. rewrite Hm2. split; [exact Hotp|]. cbn [otp expiry]. split; [now symmetry | exact Hexp]. }
    rewrite <- Hm2 in Hf1.
    destruct (verify_email_ok env2 req2 st1 u He2 Hf1 eq_refl Hmatch) as (Hs & Hf2 & _).
    split; [exact Hs|]. rewrite <- Hm2. eexists. split; [exact Hf2 | reflexivity].
Qed.

(** What the rollback of a failed delivery leaves behind: the record is
    gone, but the one-time code set for the email stays in the store, and
    verify-email for that email is answered with not-found. *)
Theorem register_rollback_keeps_code env req st :
  errors req = [] -> captcha_isValid env = true ->
  isValid (checkPasswordStrength (body_password req)) = true ->
  findOne (byEmail (body_email req)) (users st) = None ->
  mail_success env = false ->
  let st1 := fst (register env req st) in
  otpStore st1 !! body_email req
    = Some {| otp := random_otp env; expiry := now env + 10 * 60 * 1000; attempts := 0 |}
  /\ (forall env2 req2,
        errors req2 = [] -> body_email req2 = body_email req ->
        verify_email env2 req2 st1 = (st1, NotFoundError)).
Proof.
  intros He Hc Hv Hnone Hmail st1. apply errors_guard in He.
  assert (Hgone : findOne (byEmail (body_email req)) (users st1) = None).
  { subst st1. unfold register. rewrite He, Hc, Hv, Hnone, Hmail.
    cbn [negb fst users with_users with_otpStore].
    rewrite deleteOne_app_fresh; [exact Hnone | |].
    - intros d Hd. now apply byId_fresh.
    - unfold byId. cbn [_id]. apply N.eqb_refl. }
  split.
  - subst st1. unfold register.
    rewrite He, Hc, Hv, Hnone, Hmail. cbn [negb fst otpStore with_users with_otpStore].
    apply lookup_insert_eq.
  - intros env2 req2 He2 Hm2. unfold verify_email. apply errors_guard in He2.
    now rewrite He2, Hm2, Hgone.
Qed.

(** What a login response tells about the account.  A wrong password for
    a verified, unlocked account is answered exactly like an unknown
    email; but a stored account that is locked or unverified is answered
    with another envelope, whatever the password. *)
Theorem login_enumeration :
  (forall env req st env' req' st' u,
      errors req = [] -> captcha_isValid env = true ->
      findOne (byEmail (body_email req)) (users st) = None ->
      errors req' = [] -> captcha_isValid env' = true ->
      findOne (byEmail (body_email req')) (users st') = Some u ->
      isVerified u = true -> isLocked u (now env') = false ->
      comparePassword (body_password req') (password u) = false ->
      snd (login env req st) = snd (login env' req' st'))
  /\ (forall env req st u,
      errors req = [] -> captcha_isValid env = true ->
      findOne (byEmail (body_email req)) (users st) = Some u ->
      isLocked u (now env) = true \/ isVerified u = false ->
      login env req st = (st, AccountLockedError)
      \/ login env req st = (st, UnverifiedError)).
Proof.
  split.
  - intros env req st env' req' st' u He Hc Hnone He' Hc' Hf Hv Hlk Hp.
    destruct (login_mismatch env' req' st' u He' Hc' Hf Hlk Hv Hp) as [-> _].
    unfold login. apply errors_guard in He. now rewrite He, Hc, Hnone.
  - intros env req st u He Hc Hf Hcase. unfold login. apply errors_guard in He.
    rewrite He, Hc, Hf. cbn [negb].
    destruct (isLocked u (now env)); [now left|].
    destruct Hcase as [Hl|Hv]; [discriminate|]. rewrite Hv. now right.
Qed.

End AccountFlows.

(** ** Profile update *)

Section ProfileProofs.
Import Security Store Auth AuthRest Props Invariants.
Context `{Bcrypt}.

(** The profile update changes no document.  Every stored user keeps
    id, role and all credential fields; beyond that, the update is
    addressed by the string id of the caller, which matches no document
    key, so the request is never successful and leaves the whole state as
    it was: a well-formed request is answered with not-found when
    [req.user] is set, and with status 500 when it is not. *)
Theorem put_profile_frame env req st :
  (forall e u,
      findOne (byEmail e) (users st) = Some u ->
      exists u',
        findOne (byEmail e) (users (fst (put_profile env req st))) = Some u'
        /\ credentials u' = credentials u /\ _id u' = _id u /\ role u' = role u)
  /\ fst (put_profile env req st) = st
  /\ success (snd (put_profile env req st)) = false
  /\ (errors req = [] ->
      snd (put_profile env req st)
      = match req_user req with
        | Some _ => NotFoundError
        | None => reject 500 "Failed to update profile"
        end).
Proof.
  assert (Hst : fst (put_profile env req st) = st).
  { unfold put_profile.
    destruct (negb (bool_decide (errors req = []))); [reflexivity|].
    destruct (req_user req) as [caller|]; [|reflexivity].
    now rewrite findOne_byIdString. }
  split; [|split; [exact Hst|split]].
  - intros e u Hf. rewrite Hst. exists u. auto.
  - unfold put_profile.
    destruct (negb (bool_decide (errors req = []))); [reflexivity|].
    destruct (req_user req) as [caller|]; [|reflexivity].
    now rewrite findOne_byIdString.
  - intros He. apply errors_guard in He. unfold put_profile. rewrite He.
    destruct (req_user req) as [caller|]; [|reflexivity].
    now rewrite findOne_byIdString.
Qed.

End ProfileProofs.

(** ** More on multi-factor authentication *)

Section MfaMore.
Import Security Store Mfa MfaRest.

Lemma toHex_length bs : String.length (JS.toHex bs) = (2 * List.length bs)%nat.
Proof. induction bs as [|b bs IH]; cbn [JS.toHex String.length List.length]; lia. Qed.

Lemma toUpperCase_length s : String.length (JS.toUpperCase s) = String.length s.
Proof. induction s as [|c s IH]; cbn [JS.toUpperCase String.length]; congruence. Qed.

Lemma hexDigit_upper n :
  n < 16 -> In (JS.upperChar (JS.hexDigit n)) (list_ascii_of_string "0123456789ABCDEF").
Proof.
  intros Hn. destruct n as [|p]; [vm_compute; tauto|].
  do 4 (try destruct p as [p|p|]); try lia; vm_compute; tauto.
Qed.

Lemma toHex_upper_chars bs c :
  In c (list_ascii_of_string (JS.toUpperCase (JS.toHex bs))) ->
  In c (list_ascii_of_string "0123456789ABCDEF").
Proof.
  induction bs as [|b bs IH]; cbn [JS.toHex JS.toUpperCase list_ascii_of_string]; [intros []|].
  intros [<-|[<-|Hc]]; [| |auto].
  - apply hexDigit_upper. apply N.Div0.div_lt_upper_bound.
    pose proof (N.mod_lt b 256). lia.
  - apply hexDigit_upper. apply N.mod_lt. lia.
Qed.

(** The generator returns ten codes; each consists of upper-case
    hexadecimal digits only, is unchanged by upper-casing, and is eight
    characters long when every random buffer holds four bytes, which is
    what the backup-code validator asks for. *)
Theorem generateBackupCodes_shape (randomBytes : nat -> list N) :
  List.length (generateBackupCodes randomBytes) = 10%nat
  /\ (forall code, In code (generateBackupCodes randomBytes) ->
        (forall ch, In ch (list_ascii_of_string code) ->
                    In ch (list_ascii_of_string "0123456789ABCDEF"))
        /\ JS.toUpperCase code = code
        /\ ((forall i, List.length (randomBytes i) = 4%nat) -> String.length code = 8%nat)).
Proof.
  split; [reflexivity|]. intros code Hc.
  split; [|split; [now apply (generateBackupCodes_normalized randomBytes)|]].
  - unfold generateBackupCodes in Hc. apply in_map_iff in Hc as (i & <- & _).
    intros ch. apply toHex_upper_chars.
  - intros Hlen. unfold generateBackupCodes in Hc. apply in_map_iff in Hc as (i & <- & _).
    now rewrite toUpperCase_length, toHex_length, Hlen.
Qed.

Lemma findOne_updateOne_other {Doc} (q q' : Doc -> bool) upd c :
  (forall x, q (upd x) = q x) ->
  (forall x, q' x = true -> q x = false) ->
  findOne q (updateOne q' upd c) = findOne q c.
Proof.
  unfold findOne. intros Hst Hdis. induction c as [|x c IH]; cbn [updateOne find]; [reflexivity|].
  destruct (q' x) eqn:Hq'; cbn [find].
  - now rewrite Hst, (Hdis x Hq').
  - now rewrite IH.
Qed.

Lemma byId_disjoint i j x : i <> j -> byId i x = true -> byId j x = false.
Proof.
  unfold byId. intros Hne Hi. apply N.eqb_eq in Hi. apply N.eqb_neq. congruence.
Qed.

(** A successful backup verification strictly lowers the number of
    codes stored for the user; a refused one leaves the collection as it
    was. *)
Theorem backup_codes_remaining env req st u codes :
  errors req = [] ->
  NoDup (List.map _id (users st)) ->
  findOne (byEmail (body_email req)) (users st) = Some u ->
  mfaBackupCodes u = Some codes ->
  let out := verify_backup env req st in
  (success (snd out) = true ->
   exists u' codes',
     findOne (byEmail (body_email req)) (users (fst out)) = Some u'
     /\ mfaBackupCodes u' = Some codes'
     /\ (List.length codes' < List.length codes)%nat)
  /\ (success (snd out) = false -> users (fst out) = users st).
Proof.
  intros He Hnd Hf Hcodes out.
  assert (Hg : negb (bool_decide (errors req = [])) = false) by now apply errors_guard.
  subst out. unfold verify_backup. rewrite Hg, Hf, Hcodes.
  destruct (mfaEnabled u) eqn:Hen; cbn [negb]; [|split; [discriminate | reflexivity]].
  destruct (verifyBackupCode (body_backupCode req) codes) eqn:Hv; cbn [negb fst snd];
    [|split; [discriminate | reflexivity]].
  split; [|discriminate]. intros _.
  cbn [users logAuditEvent with_users].
  rewrite (updateOne_byId_of_found (body_email req) _ (users st) u Hnd Hf).
  eexists _, _. split.
  { apply findOne_updateOne_hit; [exact Hf|].
    change (byEmail (body_email req) u = true). now apply find_some in Hf. }
  split; [reflexivity|].
  - unfold verifyBackupCode in Hv. apply includes_spec in Hv.
    set (x := JS.toUpperCase (body_backupCode req)) in *.
    clear - Hv. induction codes as [|c codes IH]; [destruct Hv|].
    cbn [List.filter List.length].
    destruct (String.eqb_spec c x) as [->|Hne]; cbn [negb List.length].
    + pose proof (filter_length_le (fun code => negb (String.eqb code x)) codes). lia.
    + destruct Hv as [->|Hv]; [congruence|]. specialize (IH Hv). lia.
Qed.

Context `{Totp}.

(** The four routes addressed by the string id of the request find no
    document and answer with status 500, the state being as before. *)
Lemma setup_refused env req st : setup env req st = (st, reject 500 "MFA setup failed").
Proof. unfold setup. now rewrite findOne_byIdString_mfa. Qed.

Lemma verify_setup_unchanged env req st : fst (verify_setup env req st) = st.
Proof.
  unfold verify_setup. destruct (negb (bool_decide _)); [reflexivity|].
  now rewrite findOne_byIdString_mfa.
Qed.

Lemma disable_refused env req st :
  fst (disable env req st) = st
  /\ (errors req = [] -> snd (disable env req st) = reject 500 "MFA disable failed").
Proof.
  unfold disable. split.
  - destruct (negb (bool_decide _)); [reflexivity|]. now rewrite findOne_byIdString_mfa.
  - intros He. apply errors_guard in He. now rewrite He, findOne_byIdString_mfa.
Qed.

Lemma regenerate_refused env req st :
  regenerate_backup_codes env req st
  = (st, Refused (reject 500 "Failed to regenerate backup codes")).
Proof. unfold regenerate_backup_codes. now rewrite findOne_byIdString_mfa. Qed.

Lemma verify_unchanged env req st : users (fst (verify env req st)) = users st.
Proof.
  unfold verify. destruct (negb (bool_decide _)); [reflexivity|].
  destruct (findOne (byEmail (body_email req)) (users st)) as [u|]; [|reflexivity].
  destruct (negb (mfaEnabled u)); [reflexivity|].
  destruct (verifyMFAToken _ _ _) as [[|]|]; reflexivity.
Qed.

(** The MFA routes and the stored documents.  Setup, confirmation,
    disable and regeneration are addressed by the string id of the
    request, match no document and leave the collection as it was; the
    backup-code route changes at most the document of the user it found
    by email, every document under another id being the same before and
    after; and the TOTP check of [/verify] never changes the collection. *)
Theorem mfa_touches_only_caller env req st j :
  (users (fst (setup env req st)) = users st
   /\ users (fst (verify_setup env req st)) = users st
   /\ users (fst (disable env req st)) = users st
   /\ users (fst (regenerate_backup_codes env req st)) = users st)
  /\ ((forall u, findOne (byEmail (body_email req)) (users st) = Some u -> j <> _id u) ->
      findOne (byId j) (users (fst (verify_backup env req st))) = findOne (byId j) (users st))
  /\ users (fst (verify env req st)) = users st.
Proof.
  split; [|split].
  - split; [now rewrite setup_refused|]. split; [now rewrite verify_setup_unchanged|].
    split; [now rewrite (proj1 (disable_refused env req st))|].
    now rewrite regenerate_refused.
  - intros Hne. unfold verify_backup. destruct (negb (bool_decide _)); [reflexivity|].
    destruct (findOne (byEmail (body_email req)) (users st)) as [u|]; [|reflexivity].
    specialize (Hne u eq_refl).
    destruct (mfaBackupCodes u); [|reflexivity].
    destruct (negb (mfaEnabled u)); [reflexivity|].
    destruct (negb (verifyBackupCode _ _)); [reflexivity|].
    cbn [fst users logAuditEvent with_users].
    apply findOne_updateOne_other; [reflexivity|]. intros x. apply byId_disjoint. congruence.
  - apply verify_unchanged.
Qed.

End MfaMore.

Section MfaSwitch.
Import Security Store Mfa MfaRest.
Context `{Totp}.




End MfaSwitch.

(** ** The authentication middleware *)

Section MiddlewareProofs.
Import Store Auth Middleware.
Context `{Jwt}.

Lemma bearer_header t : bearer (Some ("Bearer " ++ t)) = Some t.
Proof. destruct t; reflexivity. Qed.

(** Where the token is taken from: a bearer header with a non-empty
    token wins over cookie and query; when the header yields no token
    (absent, another scheme, or an empty bearer token) the cookie is used
    if it is non-empty, then the query parameter; and when none of the
    three yields a non-empty token, none is found. *)
Theorem token_precedence (r : HttpRequest) :
  (forall t, t <> "" -> authorization r = Some ("Bearer " ++ t) -> extractToken r = Some t)
  /\ (truthy (bearer (authorization r)) = false -> truthy (cookie_token r) = true ->
      extractToken r = cookie_token r)
  /\ (truthy (bearer (authorization r)) = false -> truthy (cookie_token r) = false ->
      truthy (query_token r) = true -> extractToken r = query_token r)
  /\ (truthy (bearer (authorization r)) = false -> truthy (cookie_token r) = false ->
      truthy (query_token r) = false -> truthy (extractToken r) = false).
Proof.
  unfold extractToken. split; [|split; [|split]].
  - intros t Ht Ha. rewrite Ha, bearer_header.
    assert (Htr : truthy (Some t) = true)
      by (cbn [truthy]; apply negb_true_iff; now apply String.eqb_neq).
    rewrite Htr. cbn [negb andb]. rewrite Htr. reflexivity.
  - intros Hb Hc. rewrite Hb, Hc. cbn [negb andb]. rewrite Hc. reflexivity.
  - intros Hb Hc Hq. rewrite Hb, Hc. cbn [negb andb]. rewrite Hb, Hq. reflexivity.
  - intros Hb Hc Hq. rewrite Hb, Hc. cbn [negb andb]. rewrite Hb, Hq. cbn [negb andb].
    exact Hb.
Qed.

(** The lookup by the string claim of the token finds no document. *)
Lemma findOne_claim s (us : list User) : findOne (byIdString s) us = None.
Proof. unfold findOne. induction us as [|x us IH]; cbn; auto. Qed.

(** No request passes the authentication middleware.  Whatever the
    request, the token library and the collection, [authenticateUser]
    answers with status 401, never calling [next()]; a request whose
    token verifies is answered "User not found", because the user is
    looked up by the string claim of the token; and [optionalAuth], which
    makes the same lookup, never sets [req.user]. *)
Theorem authenticateUser_never_passes r us :
  (exists msg, authenticateUser r us = Respond (reject 401 msg))
  /\ (forall token decoded,
        extractToken r = Some token -> token <> "" ->
        verifyToken token = Some decoded ->
        authenticateUser r us = Respond (reject 401 "User not found"))
  /\ optionalAuth r us = None.
Proof.
  split; [|split].
  - unfold authenticateUser.
    destruct (negb (truthy (extractToken r))); [eauto|].
    destruct (verifyToken _); [|eauto].
    rewrite findOne_claim. eauto.
  - intros token decoded Ht Hne Hd. unfold authenticateUser. rewrite Ht.
    cbn [truthy]. apply String.eqb_neq in Hne. rewrite Hne. cbn [negb].
    change (default "" (Some token)) with token. now rewrite Hd, findOne_claim.
  - unfold optionalAuth.
    match goal with |- context [truthy ?t] => destruct (truthy t) end;
      cbn [negb]; [|reflexivity].
    destruct (verifyToken _); [|reflexivity].
    now rewrite findOne_claim.
Qed.

End MiddlewareProofs.

(** ** The CSRF token store *)

Section CsrfProofs.
Import Csrf.

(** A token is good for one request.  A request that is neither a GET
    nor addressed to login or register, and carries a stored token in the
    header, passes and removes that token only; the same request repeated
    is refused and changes nothing.  GET requests and the login and
    register paths pass without a token and consume nothing. *)
Theorem csrf_token_single_use method path t body (m : gmap string Entry) e :
  (method <> "GET" -> path <> "/api/auth/login" -> path <> "/api/auth/register" ->
   t <> "" -> m !! t = Some e ->
   csrfProtection method path (Some t) body m = (delete t m, None)
   /\ csrfProtection method path (Some t) body (delete t m) = (delete t m, Some CsrfFailed)
   /\ forall t', t' <> t -> delete t m !! t' = m !! t')
  /\ (method = "GET" \/ path = "/api/auth/login" \/ path = "/api/auth/register" ->
      forall header, csrfProtection method path header body m = (m, None)).
Proof.
  split.
  - intros Hm Hp1 Hp2 Ht He. unfold csrfProtection.
    apply String.eqb_neq in Hm, Hp1, Hp2. rewrite Hm, Hp1, Hp2. cbn [orb].
    assert (Htr : Middleware.truthy (Some t) = true)
      by (cbn [Middleware.truthy]; apply negb_true_iff; now apply String.eqb_neq).
    rewrite Htr. cbn [negb orb]. change (default "" (Some t)) with t. rewrite Htr.
    cbn [negb orb]. unfold validateCSRFToken.
    split; [|split].
    + rewrite bool_decide_eq_true_2 by (rewrite He; eauto). reflexivity.
    + rewrite bool_decide_eq_false_2; [reflexivity|].
      rewrite lookup_delete_eq. intros [x Hx]. discriminate.
    + intros t' Hne. now apply lookup_delete_ne.
  - intros Hex header. unfold csrfProtection.
    destruct Hex as [->|[->| ->]]; [reflexivity| |];
      destruct (String.eqb method "GET"); reflexivity.
Qed.

Lemma cleanup_lookup now (m : gmap string Entry) t e :
  cleanup now m !! t = Some e <-> m !! t = Some e /\ now <= createdAt e + 60 * 60 * 1000.
Proof.
  unfold cleanup. rewrite map_lookup_filter_Some. cbn [snd].
  rewrite negb_true_iff, N.ltb_ge. reflexivity.
Qed.

(** Age is checked by the sweep alone.  A token issued at time [c] is
    accepted after a sweep run at any time up to [c] plus one hour and
    refused after a sweep run later; the check itself reads no clock, so a
    token that no sweep has removed is accepted whatever its age. *)
Theorem csrf_expiry_by_sweep random c addr now (m : gmap string Entry) :
  let m1 := generateToken random c addr m in
  validateCSRFToken random m1 = true
  /\ (now <= c + 60 * 60 * 1000 -> validateCSRFToken random (cleanup now m1) = true)
  /\ (c + 60 * 60 * 1000 < now -> validateCSRFToken random (cleanup now m1) = false)
  /\ (forall t e, cleanup now m1 !! t = Some e ->
                  m1 !! t = Some e /\ now <= createdAt e + 60 * 60 * 1000).
Proof.
  intros m1. unfold validateCSRFToken.
  assert (H1 : m1 !! random = Some {| createdAt := c; ip := addr |})
    by apply lookup_insert_eq.
  split; [|split; [|split]].
  - apply bool_decide_eq_true_2. rewrite H1. eauto.
  - intros Hle. apply bool_decide_eq_true_2. eexists. apply cleanup_lookup. split; eauto.
  - intros Hlt. apply bool_decide_eq_false_2. intros [e He].
    apply cleanup_lookup in He as [He Hle]. rewrite H1 in He. injection He as <-.
    cbn [createdAt] in Hle. lia.
  - intros t e. apply cleanup_lookup.
Qed.

End CsrfProofs.

(** ** Password rules and password expiry *)

Section RulesProofs.
Import Security Rules.

Lemma failing_nil ok msg : failing ok msg = [] <-> ok = true.
Proof. unfold failing. destruct ok; split; congruence. Qed.

Lemma firstLine_incl l c : In c (firstLine l) -> In c l.
Proof.
  induction l as [|x l IH]; cbn [firstLine]; [tauto|].
  destruct (isLineTerminator x); [intros []|]. intros [->|Hc]; [now left | right; auto].
Qed.

Lemma firstLine_all l :
  existsb isLineTerminator l = false -> firstLine l = l.
Proof.
  induction l as [|x l IH]; cbn [firstLine existsb]; [reflexivity|].
  intros Hn. apply orb_false_iff in Hn as [Hx Hl]. rewrite Hx. f_equal. auto.
Qed.

Lemma matchesAhead_test cls s : matchesAhead cls s = true -> JS.test cls s = true.
Proof.
  unfold matchesAhead, JS.test. rewrite !existsb_exists.
  intros (c & Hc & Hcls). exists c. split; [now apply firstLine_incl | exact Hcls].
Qed.

Lemma rules_nil value email :
  passwordValidationRules value email = []
  <-> ((MIN_LENGTH <=? strLength value) && (strLength value <=? MAX_LENGTH) = true
       /\ matchesAhead JS.isLower value = true /\ matchesAhead JS.isUpper value = true
       /\ matchesAhead JS.isDigit value = true /\ matchesAhead JS.isSpecial value = true
       /\ containsUsername value email = false).
Proof.
  unfold passwordValidationRules, failing.
  destruct (_ && _), (matchesAhead JS.isLower value), (matchesAhead JS.isUpper value),
    (matchesAhead JS.isDigit value), (matchesAhead JS.isSpecial value),
    (containsUsername value email); cbn [negb app]; split; intros Hx;
    first [ discriminate Hx
          | destruct Hx as (? & ? & ? & ? & ? & ?); discriminate
          | reflexivity
          | repeat split; reflexivity ].
Qed.

Lemma isValid_checks pw :
  isValid (checkPasswordStrength pw) = true
  <-> ((MIN_LENGTH <=? strLength pw) && (strLength pw <=? MAX_LENGTH) = true
       /\ JS.test JS.isLower pw = true /\ JS.test JS.isUpper pw = true
       /\ JS.test JS.isDigit pw = true /\ JS.test JS.isSpecial pw = true).
Proof.
  unfold checkPasswordStrength. cbn [isValid values chk_length chk_lowercase
    chk_uppercase chk_numbers chk_special].
  destruct (_ && _), (JS.test JS.isLower pw), (JS.test JS.isUpper pw),
    (JS.test JS.isDigit pw), (JS.test JS.isSpecial pw); cbn; split;
    first [intros Hd; discriminate Hd | intros (? & ? & ? & ? & ?); discriminate | tauto | reflexivity ].
Qed.

(** The validator chain is at least as strict as the strength check: a
    password for which the chain reports no error always scores 5, so the
    handlers' strength gate never fires after a clean validation.
    Conversely a password scoring 5 passes the chain when it has no line
    break and does not contain the email's user name; a line break can
    make the chain stricter, as it looks for each character class on the
    first line only. *)
Theorem rules_imply_strength :
  (forall value email,
      passwordValidationRules value email = [] ->
      isValid (checkPasswordStrength value) = true)
  /\ (forall value email,
      isValid (checkPasswordStrength value) = true ->
      existsb isLineTerminator (list_ascii_of_string value) = false ->
      containsUsername value email = false ->
      passwordValidationRules value email = [])
  /\ (exists value,
      isValid (checkPasswordStrength value) = true
      /\ passwordValidationRules value None
         = ["Password must contain at least one lowercase letter"]).
Proof.
  split; [|split].
  - intros value email Hr. apply rules_nil in Hr as (Hl & Ha & Hb & Hc & Hd & _).
    apply isValid_checks. repeat split; auto using matchesAhead_test.
  - intros value email Hv Hnl Hu. apply isValid_checks in Hv as (Hl & Ha & Hb & Hc & Hd).
    apply rules_nil. unfold matchesAhead. rewrite (firstLine_all _ Hnl).
    unfold JS.test in *. repeat split; assumption.
  - exists (String "A" (String "B" (String "1" (String "!" (String "C" (String "D"
             (String "E" (String "F" (String (ascii_of_N 10) (String "a" EmptyString)))))))))).
    split; reflexivity.
Qed.

Local Open Scope Z_scope.

(** Expiry in terms of elapsed time: the password counts as expired
    exactly from 90 whole days after its creation, the warning is on
    exactly from 83 whole days, so an expired password is always warned
    about; the days left are positive exactly while it is not expired, and
    at most 7 while the warning is on. *)
Theorem password_expiry_window (now created : Z) :
  let r := checkPasswordExpiry now created in
  let day := 1000 * 60 * 60 * 24 in
  (isExpired r = true <-> created + 90 * day <= now)
  /\ (shouldWarn r = true <-> created + 83 * day <= now)
  /\ (isExpired r = true -> shouldWarn r = true)
  /\ (0 < daysUntilExpiry r <-> isExpired r = false)
  /\ (shouldWarn r = true -> daysUntilExpiry r <= 7).
Proof.
  intros r day. subst r. unfold checkPasswordExpiry, EXPIRY_DAYS, WARNING_DAYS.
  cbn [isExpired shouldWarn daysUntilExpiry].
  subst day. change (1000 * 60 * 60 * 24) with 86400000.
  pose proof (Z.mul_div_le (now - created) 86400000 ltac:(lia)) as Hlow.
  pose proof (Z.mul_succ_div_gt (now - created) 86400000 ltac:(lia)) as Hup.
  set (d := (now - created) / 86400000) in *.
  assert (Hd : forall k, k <= d <-> created + k * 86400000 <= now) by (intros k; lia).
  rewrite !Z.leb_le, !Hd.
  assert (He : (90 <=? d) = false <-> ~ (90 <= d)) by (rewrite Z.leb_gt; lia).
  rewrite He, (Hd 90). repeat split; intros; lia.
Qed.

End RulesProofs.


(** ** Worked scenarios for the further properties *)

Section MoreScenarios.
Import Security Store Auth AuthRest Props Invariants Sample MoreSamples.

Lemma unique_keys_witness :
  uniqueKeys (fst (@register toyBcrypt (envAt 100 true) (request "c@x.com" "Str0ng!Pw") st0)).
Proof.
  apply (proj1 (@handlers_keep_unique_keys toyBcrypt)).
  split; apply NoDup_singleton.
Defined.

Lemma histories_witness :
  historiesOk (fst (@change_password toyBcrypt (envAt 100 true)
                      (request "a@x.com" "N3w!Passw") st0)).
Proof.
  apply (proj1 (proj2 (proj2 (proj2 (proj2 (proj2 (@handlers_keep_histories toyBcrypt))))))).
  constructor; [|constructor]. split; [cbn; lia|]. eexists _, _. split; reflexivity.
Defined.

Lemma validate_gate_witness :
  success (snd (validate_reset_token (envAt 5001 true) (request "a@x.com" "") stReset)) = false
  /\ success (snd (@reset_password toyBcrypt (envAt 5001 true)
                     (request "a@x.com" "N3w!Passw") stReset)) = false.
Proof.
  split; [reflexivity|].
  apply (proj2 (proj2 (@validate_reset_token_gate toyBcrypt (envAt 5001 true)
                         (request "a@x.com" "") stReset eq_refl))); reflexivity.
Defined.

Lemma recovery_witness :
  @reset_password toyBcrypt (envAt 200 true) (request "a@x.com" "N3w!Passw")
     (fst (forgot_password (envAt 100 true) (request "a@x.com" "") st0))
  = (fst (forgot_password (envAt 100 true) (request "a@x.com" "") st0), NotFoundError)
  /\ success (snd (@login toyBcrypt (envAt 300 true) (request "a@x.com" "N3w!Passw")
                     (fst (@reset_password toyBcrypt (envAt 200 true)
                             (request "a@x.com" "N3w!Passw")
                             (fst (forgot_password (envAt 100 true) (request "a@x.com" "")
                                     st0)))))) = false.
Proof.
  destruct (@forgot_reset_not_found toyBcrypt (envAt 100 true) (request "a@x.com" "")
              (envAt 200 true) (request "a@x.com" "N3w!Passw")
              (envAt 300 true) (request "a@x.com" "N3w!Passw") st0 ann)
    as (_ & _ & Hr & _ & Hl); try reflexivity.
  - vm_compute. discriminate.
  - split; [exact Hr | exact Hl].
Defined.

Lemma keeps_lock_witness :
  @login toyBcrypt (envAt 900 true) (request "a@x.com" "N3w!Passw")
         (fst (@change_password toyBcrypt (envAt 800 true)
                 (request "a@x.com" "N3w!Passw") stLocked))
  = (fst (@change_password toyBcrypt (envAt 800 true)
            (request "a@x.com" "N3w!Passw") stLocked), AccountLockedError).
Proof.
  apply (proj2 (@password_update_keeps_lock toyBcrypt (envAt 800 true)
                  (request "a@x.com" "N3w!Passw") stLocked "a@x.com"
                  (setLoginFailure 5 (Some 900501) ann) 900501
                  (envAt 900 true) (request "a@x.com" "N3w!Passw")
                  eq_refl eq_refl eq_refl eq_refl eq_refl eq_refl)).
Defined.

Lemma verify_twice_witness :
  verify_email (envAt 200 true) (request "a@x.com" "")
               (fst (verify_email (envAt 100 true) (request "a@x.com" "") stUnverified))
  = (fst (verify_email (envAt 100 true) (request "a@x.com" "") stUnverified),
     AlreadyVerifiedError).
Proof.
  apply (verify_email_twice (envAt 100 true) (envAt 200 true) (request "a@x.com" "")
           stUnverified annUnverified eq_refl eq_refl eq_refl).
  eexists. split; [reflexivity|]. split; [reflexivity | vm_compute; discriminate].
Defined.

Lemma register_verify_witness :
  success (snd (verify_email (envAt 600000 true) (request "c@x.com" "")
                  (fst (@register toyBcrypt (envAt 100 true)
                          (request "c@x.com" "Str0ng!Pw") st0)))) = true.
Proof.
  apply (proj2 (proj2 (proj2 (proj2
           (@register_then_verify toyBcrypt (envAt 100 true) (request "c@x.com" "Str0ng!Pw")
              st0 eq_refl eq_refl eq_refl eq_refl eq_refl)))));
    try reflexivity.
  vm_compute. discriminate.
Defined.

Lemma rollback_code_witness :
  verify_email (envAt 200 true) (request "c@x.com" "")
               (fst (@register toyBcrypt (envAt 100 false)
                       (request "c@x.com" "Str0ng!Pw") st0))
  = (fst (@register toyBcrypt (envAt 100 false) (request "c@x.com" "Str0ng!Pw") st0),
     NotFoundError).
Proof.
  apply (proj2 (@register_rollback_keeps_code toyBcrypt (envAt 100 false)
                  (request "c@x.com" "Str0ng!Pw") st0
                  eq_refl eq_refl eq_refl eq_refl eq_refl)); reflexivity.
Defined.

Lemma enumeration_witness :
  snd (@login toyBcrypt (envAt 100 true) (request "nobody@x.com" "x") st0)
  = snd (@login toyBcrypt (envAt 100 true) (request "a@x.com" "wrong") st0)
  /\ (@login toyBcrypt (envAt 100 true) (request "a@x.com" "Str0ng!Pw") stUnverified
      = (stUnverified, AccountLockedError)
      \/ @login toyBcrypt (envAt 100 true) (request "a@x.com" "Str0ng!Pw") stUnverified
         = (stUnverified, UnverifiedError)).
Proof.
  destruct (@login_enumeration toyBcrypt) as [Ha Hb]. split.
  - apply (Ha (envAt 100 true) (request "nobody@x.com" "x") st0
              (envAt 100 true) (request "a@x.com" "wrong") st0 ann); reflexivity.
  - apply (Hb (envAt 100 true) (request "a@x.com" "Str0ng!Pw") stUnverified annUnverified);
      try reflexivity. now right.
Defined.

Lemma profile_witness :
  (exists u',
      findOne (byEmail "a@x.com") (users (fst (put_profile (envAt 100 true) renameRequest st0)))
        = Some u'
      /\ credentials u' = credentials ann /\ _id u' = _id ann /\ role u' = role ann)
  /\ snd (put_profile (envAt 100 true) renameRequest st0) = NotFoundError.
Proof.
  destruct (put_profile_frame (envAt 100 true) renameRequest st0) as (Ha & _ & _ & Hb).
  split; [apply (Ha "a@x.com" ann); reflexivity | apply Hb; reflexivity].
Defined.

End MoreScenarios.

Section MoreMfaScenarios.
Import Security Store Mfa MfaRest MfaSample MoreSamples.

Lemma codes_shape_witness :
  String.length "0AABCDEF" = 8%nat /\ JS.toUpperCase "0AABCDEF" = "0AABCDEF".
Proof.
  destruct (proj2 (generateBackupCodes_shape randomSample) "0AABCDEF") as (_ & Hup & Hlen).
  - now left.
  - split; [apply Hlen; reflexivity | exact Hup].
Defined.

Lemma remaining_witness :
  exists u' codes',
    findOne (byEmail "b@x.com")
      (users (fst (verify_backup (envAt 100) (request "" "0aabcdef") stEnabled))) = Some u'
    /\ mfaBackupCodes u' = Some codes'
    /\ (List.length codes' < List.length (generateBackupCodes randomSample))%nat.
Proof.
  apply (proj1 (backup_codes_remaining (envAt 100) (request "" "0aabcdef") stEnabled
                  bobEnabled (generateBackupCodes randomSample)
                  eq_refl (NoDup_singleton _) eq_refl eq_refl)).
  reflexivity.
Defined.

Lemma only_caller_witness :
  users (fst (setup (envAt 100) (request "" "") stTwo)) = users stTwo
  /\ findOne (byId 8)
       (users (fst (verify_backup (envAt 100) (request "" "0aabcdef") stEnabled)))
     = findOne (byId 8) (users stEnabled).
Proof.
  split.
  - apply (proj1 (proj1 (@mfa_touches_only_caller toyTotp (envAt 100) (request "" "")
                            stTwo 8))).
  - apply (proj1 (proj2 (@mfa_touches_only_caller toyTotp (envAt 100)
                            (request "" "0aabcdef") stEnabled 8))).
    intros u Hu. injection Hu as <-. discriminate.
Defined.


End MoreMfaScenarios.

Section MiddlewareScenarios.
Import Store Auth Middleware Csrf Rules Sample MoreSamples.

Lemma precedence_witness :
  extractToken bearerGood = Some "good" /\ extractToken cookieOnly = Some "good".
Proof.
  split.
  - apply (proj1 (token_precedence bearerGood) "good"); [discriminate | reflexivity].
  - apply (proj1 (proj2 (token_precedence cookieOnly))); reflexivity.
Defined.

Lemma never_passes_witness :
  @authenticateUser toyJwt bearerGood [ann] = Respond (reject 401 "User not found").
Proof.
  apply (proj1 (proj2 (@authenticateUser_never_passes toyJwt bearerGood [ann]))
           "good" {| tk_userId := toString 1; tk_email := "forged@x.com";
                     tk_role := "employer"; tk_sessionId := "sid" |});
    [reflexivity | discriminate | reflexivity].
Defined.

(** The token of the scenario carries the string form of the id under
    which the user is stored, and is refused all the same. *)
Example claim_is_the_stored_id :
  (tk_userId <$> @verifyToken toyJwt "good") = Some (toString (_id ann))
  /\ toString (_id ann) = "000000000000000000000001".
Proof. split; reflexivity. Qed.

Lemma csrf_single_use_witness :
  csrfProtection "POST" "/api/jobs" (Some "t1") None csrfSample = (delete "t1" csrfSample, None)
  /\ csrfProtection "POST" "/api/jobs" (Some "t1") None (delete "t1" csrfSample)
     = (delete "t1" csrfSample, Some CsrfFailed).
Proof.
  destruct (proj1 (csrf_token_single_use "POST" "/api/jobs" "t1" None csrfSample
                     {| createdAt := 1000; ip := "10.0.0.1" |}))
    as (Ha & Hb & _); try discriminate; [reflexivity|].
  split; assumption.
Defined.

Lemma csrf_sweep_witness :
  validateCSRFToken "t2" (cleanup 3601000 (generateToken "t2" 1000 "10.0.0.1" csrfSample)) = true
  /\ validateCSRFToken "t2" (cleanup 3601001 (generateToken "t2" 1000 "10.0.0.1" csrfSample))
     = false.
Proof.
  split.
  - apply (proj1 (proj2 (csrf_expiry_by_sweep "t2" 1000 "10.0.0.1" 3601000 csrfSample))).
    vm_compute. discriminate.
  - apply (proj1 (proj2 (proj2 (csrf_expiry_by_sweep "t2" 1000 "10.0.0.1" 3601001 csrfSample)))).
    reflexivity.
Defined.

Lemma rules_witness :
  Security.isValid (Security.checkPasswordStrength "Str0ng!Pw") = true
  /\ passwordValidationRules "Str0ng!Pw" (Some "a@x.com") = [].
Proof.
  destruct rules_imply_strength as (Ha & Hb & _).
  assert (Hr : passwordValidationRules "Str0ng!Pw" (Some "a@x.com") = [])
    by (apply Hb; reflexivity).
  split; [apply (Ha _ _ Hr) | exact Hr].
Defined.

(** The user name of the email is refused inside a password. *)
Example username_refused :
  passwordValidationRules "Ann99!xyZ" (Some "ann99@x.com")
  = ["Password cannot contain your email username"].
Proof. reflexivity. Qed.

(** Lower-casing reaches the Latin-1 capitals: a password that starts
    with code unit 201 contains the user name that starts with 233. *)
Example latin1_username_refused :
  passwordValidationRules (String (ascii_of_N 201) "MILE!12ab")
                          (Some (String (ascii_of_N 233) "mile@x.com"))
  = ["Password cannot contain your email username"].
Proof. reflexivity. Qed.

Lemma expiry_witness :
  isExpired (checkPasswordExpiry (90 * 86400000) 0) = true
  /\ isExpired (checkPasswordExpiry (90 * 86400000 - 1) 0) = false
  /\ shouldWarn (checkPasswordExpiry (90 * 86400000 - 1) 0) = true.
Proof.
  split; [|split].
  - apply (proj1 (password_expiry_window (90 * 86400000) 0)). reflexivity.
  - apply (proj1 (proj2 (proj2 (proj2 (password_expiry_window (90 * 86400000 - 1) 0))))).
    reflexivity.
  - apply (proj1 (proj2 (password_expiry_window (90 * 86400000 - 1) 0))).
    vm_compute. discriminate.
Defined.

End MiddlewareScenarios.
